(** * Quiz-chain solver: a shallow embedding of [quiz_solver.py]

    The development follows the source file top-down:
    - [PyStr]: the Python [str] methods the solver calls ([strip], [lower],
      [in], [startswith], [find], [rfind], [replace], slicing) and the
      regular expression [-?\d+\.?\d*] of the number coercion;
    - [Solver]: dynamically typed values, the environment of external
      services, and the methods of [QuizSolver], [Visualizer.create_chart]
      included;
    - [Demo]: scripted environments on which the methods run;
    - [PlanExtractor], [AnswerResolver], [ChainController]: the theorems
      about URL repair, answer coercion and the chain loop.

    What the model leaves out: text is a sequence of code points below
    256 (Rocq's [string]), with Python's character classes on that range;
    a float is the rational its literal denotes; time is rational; logging
    is dropped.  The browser, HTTP, the language model, [json.loads],
    [urlparse], [urljoin], pandas and matplotlib are parameters, and any
    of them may raise. *)

From Stdlib Require Import String Ascii List ZArith QArith.
From Stdlib Require Import Lia Bool Arith Sorted.
Import ListNotations.

Local Open Scope string_scope.
Local Open Scope Z_scope.

(** ** Python string operations *)

Module PyStr.

(** Truth value of a [str]: only the empty string is falsy. *)
Definition truthy (s : string) : bool :=
  match s with
  | EmptyString => false
  | String _ _ => true
  end.

(** [s.startswith(p)]. *)
Definition startswith (s p : string) : bool := String.prefix p s.

(** [sub in s]. *)
Fixpoint contains (sub s : string) : bool :=
  String.prefix sub s ||
  match s with
  | EmptyString => false
  | String _ s' => contains sub s'
  end.

(** [s.find(c)] for a one-character needle: index of the first
    occurrence, [-1] when there is none. *)
Fixpoint find_from (c : ascii) (s : string) (i : Z) : Z :=
  match s with
  | EmptyString => -1
  | String a s' => if Ascii.eqb a c then i else find_from c s' (i + 1)
  end.

Definition find (s : string) (c : ascii) : Z := find_from c s 0.

(** [s.rfind(c)]: index of the last occurrence, [-1] when there is none. *)
Fixpoint rfind_from (c : ascii) (s : string) (i last : Z) : Z :=
  match s with
  | EmptyString => last
  | String a s' => rfind_from c s' (i + 1) (if Ascii.eqb a c then i else last)
  end.

Definition rfind (s : string) (c : ascii) : Z := rfind_from c s 0 (-1).

(** [s[a:b]] for [0 <= a]; the solver only slices behind the test
    [start_idx != -1]. *)
Definition slice (s : string) (a b : Z) : string :=
  String.substring (Z.to_nat a) (Z.to_nat (b - a)) s.

(** [s[:n]]. *)
Definition take (n : nat) (s : string) : string := String.substring 0 n s.

(** [s.replace(old, new)]: every non-overlapping occurrence, left to
    right.  [skip] counts the characters of an occurrence still to drop. *)
Fixpoint replace_aux (old new : string) (skip : nat) (s : string) : string :=
  match s with
  | EmptyString =>
      match old with
      | EmptyString => new
      | String _ _ => EmptyString
      end
  | String c s' =>
      match skip with
      | S k => replace_aux old new k s'
      | O =>
          match old with
          | EmptyString => new ++ String c (replace_aux old new 0 s')
          | String _ _ =>
              if String.prefix old s
              then new ++ replace_aux old new (String.length old - 1) s'
              else String c (replace_aux old new 0 s')
          end
      end
  end.

Definition replace (s old new : string) : string := replace_aux old new 0 s.

(** [c.isspace()] on code points below 256. *)
Definition isspace (c : ascii) : bool :=
  let n := N_of_ascii c in
  ((9 <=? n) && (n <=? 13) || (28 <=? n) && (n <=? 32)
   || (n =? 133) || (n =? 160))%N.

Fixpoint lstrip (s : string) : string :=
  match s with
  | EmptyString => EmptyString
  | String c s' => if isspace c then lstrip s' else s
  end.

Fixpoint rstrip (s : string) : string :=
  match s with
  | EmptyString => EmptyString
  | String c s' =>
      match rstrip s' with
      | EmptyString => if isspace c then EmptyString else String c EmptyString
      | String _ _ as r => String c r
      end
  end.

(** [s.strip()]. *)
Definition strip (s : string) : string := rstrip (lstrip s).

(** [c.lower()] on code points below 256: A-Z and the accented capitals
    U+00C0..U+00DE (without the multiplication sign U+00D7) move up by 32. *)
Definition lower_char (c : ascii) : ascii :=
  let n := N_of_ascii c in
  if ((65 <=? n) && (n <=? 90)
      || (192 <=? n) && (n <=? 222) && negb (n =? 215))%N
  then ascii_of_N (n + 32) else c.

Fixpoint lower (s : string) : string :=
  match s with
  | EmptyString => EmptyString
  | String c s' => String (lower_char c) (lower s')
  end.

(** No character of [s] is white space. *)
Fixpoint no_space (s : string) : bool :=
  match s with
  | EmptyString => true
  | String c s' => negb (isspace c) && no_space s'
  end.

(** *** The pattern [-?\d+\.?\d*] *)

Definition isdigit (c : ascii) : bool :=
  let n := N_of_ascii c in ((48 <=? n) && (n <=? 57))%N.

Fixpoint has_digit (s : string) : bool :=
  match s with
  | EmptyString => false
  | String c s' => isdigit c || has_digit s'
  end.

(** Longest run of digits at the front, and what follows it. *)
Fixpoint span_digits (s : string) : string * string :=
  match s with
  | EmptyString => (EmptyString, EmptyString)
  | String c s' =>
      if isdigit c
      then let (ds, rest) := span_digits s' in (String c ds, rest)
      else (EmptyString, s)
  end.

(** One attempt of the pattern at the front of [s].  Every quantifier is
    greedy and the tail [\.?\d*] never fails, so the only backtracking is
    giving up the sign, which leaves ["-"] in front of [\d+] and fails. *)
Definition match_number (s : string) : option string :=
  let (sign, s1) :=
    match s with
    | String c s' => if Ascii.eqb c "-" then ("-", s') else (EmptyString, s)
    | EmptyString => (EmptyString, s)
    end in
  let (ds, s2) := span_digits s1 in
  if truthy ds then
    let (dot, s3) :=
      match s2 with
      | String c s' => if Ascii.eqb c "." then (".", s') else (EmptyString, s2)
      | EmptyString => (EmptyString, s2)
      end in
    let (fs, _) := span_digits s3 in
    Some (sign ++ ds ++ dot ++ fs)
  else None.

(** [re.findall(r'-?\d+\.?\d*', s)]: the scan restarts behind each match. *)
Fixpoint findall_aux (skip : nat) (s : string) : list string :=
  match s with
  | EmptyString => []
  | String _ s' =>
      match skip with
      | S k => findall_aux k s'
      | O =>
          match match_number s with
          | Some tok => tok :: findall_aux (String.length tok - 1) s'
          | None => findall_aux 0 s'
          end
      end
  end.

Definition findall_number (s : string) : list string := findall_aux 0 s.

(** The most digits [int] accepts in a decimal literal
    ([sys.int_info.default_max_str_digits]). *)
Definition int_max_str_digits : Z := 4300.

(** The digits of a token of the pattern, read in base ten. *)
Definition digit_val (c : ascii) : Z := Z.of_N (N_of_ascii c) - 48.

Fixpoint digits_val (acc : Z) (s : string) : Z :=
  match s with
  | EmptyString => acc
  | String c s' => digits_val (acc * 10 + digit_val c) s'
  end.

Definition unsigned_part (tok : string) : bool * string :=
  match tok with
  | String c t => if Ascii.eqb c "-" then (true, t) else (false, tok)
  | EmptyString => (false, tok)
  end.

(** [int(tok)] for a token of the pattern without a full stop; [None] is
    the [ValueError] for more than [int_max_str_digits] digits, leading
    zeros counted and the sign not. *)
Definition int_of_token (tok : string) : option Z :=
  let (neg, t) := unsigned_part tok in
  if int_max_str_digits <? Z.of_nat (String.length t) then None
  else
    let v := digits_val 0 t in
    Some (if neg then - v else v).

(** [float(tok)]: the exact rational the decimal token denotes, in lowest
    terms.  Python rounds it to the nearest binary64, and to an infinity
    beyond the range; rounding and the sign of zero are outside the
    model.  [float] never raises on a token of the pattern. *)
Definition float_of_token (tok : string) : Q :=
  let (neg, t) := unsigned_part tok in
  let (ip, rest) := span_digits t in
  let fp :=
    match rest with
    | String c f => if Ascii.eqb c "." then f else EmptyString
    | EmptyString => EmptyString
    end in
  let m := digits_val (digits_val 0 ip) fp in
  Qred (Qmake (if neg then - m else m)
              (Z.to_pos (10 ^ Z.of_nat (String.length fp)))).

End PyStr.

(** ** The solver *)

Module Solver.
Import PyStr.
Local Open Scope list_scope.

(** *** Python values

    Everything the solver passes around is a dynamically typed object:
    URLs, plans and grading responses are whatever [json.loads] and
    [response.json()] produced.  Dictionaries keep insertion order. *)

#[warnings="-register-all"]
Inductive value : Type :=
| VNone
| VBool (b : bool)
| VInt (z : Z)
| VFloat (q : Q)
| VStr (s : string)
| VList (l : list value)
| VDict (kvs : list (string * value)).

(** Truth value, as tested by [if x:] and [not x]. *)
Definition value_truthy (v : value) : bool :=
  match v with
  | VNone => false
  | VBool b => b
  | VInt z => negb (z =? 0)
  | VFloat q => negb (Qeq_bool q 0)
  | VStr s => truthy s
  | VList l => match l with [] => false | _ :: _ => true end
  | VDict kvs => match kvs with [] => false | _ :: _ => true end
  end.

(** [v == 'literal']. *)
Definition is_str (v : value) (s : string) : bool :=
  match v with
  | VStr t => String.eqb t s
  | _ => false
  end.

(** A call either returns or raises; every [except] clause of the solver
    catches [Exception], so the kind of exception is not recorded. *)
Inductive py (A : Type) : Type :=
| Ret (a : A)
| Raise.
Arguments Ret {A} a.
Arguments Raise {A}.

Fixpoint dict_lookup (k : string) (kvs : list (string * value))
    : option value :=
  match kvs with
  | [] => None
  | (k', v) :: rest => if String.eqb k' k then Some v else dict_lookup k rest
  end.

(** [d.get(k, default)]; only dictionaries have the method. *)
Definition get (d : value) (k : string) (default : value) : py value :=
  match d with
  | VDict kvs =>
      Ret (match dict_lookup k kvs with
           | Some v => v
           | None => default
           end)
  | _ => Raise
  end.

Fixpoint chars (s : string) : list value :=
  match s with
  | EmptyString => []
  | String c s' => VStr (String c EmptyString) :: chars s'
  end.

(** The items a [for] loop visits: list elements, characters of a string,
    keys of a dictionary; other objects are not iterable. *)
Definition py_iter (v : value) : py (list value) :=
  match v with
  | VList l => Ret l
  | VStr s => Ret (chars s)
  | VDict kvs => Ret (map (fun kv => VStr (fst kv)) kvs)
  | _ => Raise
  end.

(** [v[:50]]. *)
Definition slice50 (v : value) : py value :=
  match v with
  | VStr s => Ret (VStr (take 50 s))
  | VList l => Ret (VList (firstn 50 l))
  | _ => Raise
  end.

(** What [prepare_chart_data] hands to the visualizer: a [DataFrame]
    built from a column dictionary, or a plain dictionary. *)
Inductive chart_data : Type :=
| Frame (columns : value)
| Dict (d : value).

(** *** External services

    Every call that leaves the process is recorded in a trace, and the
    answer of a service may depend on everything that happened before. *)

Inductive event : Type :=
| EvTime
| EvBrowser (url : value)
| EvHttpGet (url : value)
| EvPlanChat
| EvDownload (source : value)
| EvAnswerChat
| EvSubmit (submit_url quiz_url answer : value).

Definition trace := list event.

Record Env : Type := {
  (** [time.time()], in seconds; the rounding of the float subtraction
      in the time check is outside the model *)
  time_time : trace -> Q;
  (** the Playwright block of [fetch_quiz_page]: the rendered page *)
  page_content : trace -> value -> py string;
  (** [requests.get(url, timeout=30)]: status code and text *)
  requests_get : trace -> value -> py (Z * string);
  (** [client.chat.completions.create(...)]: the message content *)
  chat_completion : trace -> py (option string);
  (** [json.loads] *)
  json_loads : string -> py value;
  (** [DataProcessor.fetch_and_process]: a record, raw text or [None] *)
  fetch_and_process : trace -> value -> value;
  (** [len(pd.DataFrame(d))] *)
  dataframe_len : value -> py nat;
  (** the matplotlib part of [Visualizer.create_chart]: base64 of the PNG *)
  render_png : trace -> chart_data -> string -> value -> py string;
  (** [requests.post(...)]: status code and [response.json()] *)
  requests_post : trace -> value -> value -> value -> py (Z * py value);
  (** [urlparse(url)]: scheme and netloc *)
  urlparse : value -> py (string * string);
  (** [urljoin(base, url)] *)
  urljoin : value -> string -> py string
}.

(** State of the [while] loop of [solve_quiz_chain]. *)
Record LoopState : Type := {
  current_url : value;
  quiz_count : nat;
  events : trace
}.

(** The ways out of the loop: the two halves of the [while] condition and
    the three [break]s. *)
Inductive StopReason : Type :=
| EmptyUrl
| StepLimitReached
| TimeLimitReached
| Completed
| StepFailed.

Inductive Step : Type :=
| Running (st : LoopState)
| Stopped (reason : StopReason) (st : LoopState).

Definition max_quizzes : nat := 20.
Definition time_ceiling : Q := 170.
Definition placeholder : string := "current-page-url".

Section Methods.

Variable env : Env.

(** [fetch_quiz_page]: rendered page first, plain GET as the fallback. *)
Definition fetch_quiz_page (url : value) (tr : trace) : value * trace :=
  match page_content env tr url with
  | Ret content => (VStr content, tr ++ [EvBrowser url])
  | Raise =>
      let tr1 := tr ++ [EvBrowser url] in
      let tr2 := tr1 ++ [EvHttpGet url] in
      match requests_get env tr1 url with
      | Ret (status_code, text) =>
          if status_code =? 200 then (VStr text, tr2) else (VNone, tr2)
      | Raise => (VNone, tr2)
      end
  end.

(** The loop over [data_sources] in [execute_solution_plan]: falsy
    results are dropped. *)
Fixpoint download_all (sources : list value) (tr : trace)
    : list value * trace :=
  match sources with
  | [] => ([], tr)
  | source :: rest =>
      let data := fetch_and_process env tr source in
      let (more, tr') := download_all rest (tr ++ [EvDownload source]) in
      (if value_truthy data then data :: more else more, tr')
  end.

(** [Visualizer.create_chart]: a data URI, or [None] when drawing raised. *)
Definition create_chart (tr : trace) (data : chart_data) (chart_type : string)
    (title : value) : option string :=
  match render_png env tr data chart_type title with
  | Ret image_base64 => Some ("data:image/png;base64," ++ image_base64)%string
  | Raise => None
  end.

(** [len(pd.DataFrame(d)) > 0], returning the frame. *)
Definition nonempty_frame (d : value) : py (option chart_data) :=
  match dataframe_len env d with
  | Ret n => Ret (if (0 <? n)%nat then Some (Frame d) else None)
  | Raise => Raise
  end.

(** One round of the [for data_item] loop of [prepare_chart_data]:
    [Ret (Some d)] returns [d], [Ret None] moves on to the next item. *)
Definition chart_item (data_item : value) : py (option chart_data) :=
  match get data_item "type" VNone with
  | Raise => Raise
  | Ret ty =>
      if is_str ty "csv" then
        match get data_item "dataframe" VNone with
        | Raise => Raise
        | Ret df_dict =>
            if value_truthy df_dict then nonempty_frame df_dict else Ret None
        end
      else if is_str ty "excel" then
        match get data_item "sheets" (VDict []) with
        | Raise => Raise
        | Ret sheets =>
            if value_truthy sheets then
              match sheets with
              | VDict ((_, first_sheet) :: _) =>
                  match get first_sheet "data" VNone with
                  | Raise => Raise
                  | Ret sheet_data =>
                      if value_truthy sheet_data
                      then nonempty_frame sheet_data else Ret None
                  end
              | _ => Raise
              end
            else Ret None
        end
      else if is_str ty "json" then
        match get data_item "data" VNone with
        | Raise => Raise
        | Ret json_data =>
            match json_data with
            | VDict _ => Ret (Some (Dict json_data))
            | _ => Ret None
            end
        end
      else Ret None
  end.

Fixpoint chart_loop (items : list value) : py (option chart_data) :=
  match items with
  | [] => Ret None
  | data_item :: rest =>
      match chart_item data_item with
      | Raise => Raise
      | Ret (Some d) => Ret (Some d)
      | Ret None => chart_loop rest
      end
  end.

(** [prepare_chart_data]: the [except] clause turns any exception of the
    loop into [None]. *)
Definition prepare_chart_data (downloaded_data : list value)
    (answer_text : string) : option chart_data :=
  match downloaded_data with
  | [] => None
  | _ :: _ =>
      match chart_loop downloaded_data with
      | Ret r => r
      | Raise => None
      end
  end.

Definition determine_chart_type (answer_text : string) : string :=
  let lower_text := lower answer_text in
  if contains "pie" lower_text then "pie"
  else if contains "line" lower_text || contains "trend" lower_text
          || contains "time" lower_text then "line"
  else "bar".

(** The last [elif] of the coercion: the declared shape calls for an image. *)
Definition is_chart_shape (answer_format : string) : bool :=
  String.eqb answer_format "base64_image"
  || contains "chart" (lower answer_format)
  || contains "visualization" (lower answer_format).

(** Lines 238-282 of [execute_solution_plan]: coercion of the trimmed
    response to the declared shape.  [Raise] is an exception that reaches
    the outer [except] of the method; the inner [except] clauses return
    [answer_text]. *)
Definition coerce_answer (plan answer_format : value)
    (downloaded_data : list value) (answer_text : string) (tr : trace)
    : py value :=
  if is_str answer_format "number" then
    match findall_number answer_text with
    | tok :: _ =>
        if contains "." tok then Ret (VFloat (float_of_token tok))
        else
          match int_of_token tok with
          | Some z => Ret (VInt z)
          | None => Ret (VStr answer_text)
          end
    | [] => Ret (VStr answer_text)
    end
  else if is_str answer_format "boolean" then
    let lower_text := lower answer_text in
    Ret (VBool (contains "true" lower_text || contains "yes" lower_text))
  else if is_str answer_format "json" then
    let start_idx := find answer_text "{" in
    let end_idx := rfind answer_text "}" + 1 in
    if negb (start_idx =? -1) && (end_idx >? start_idx) then
      match json_loads env (slice answer_text start_idx end_idx) with
      | Ret v => Ret v
      | Raise => Ret (VStr answer_text)
      end
    else Ret (VStr answer_text)
  else
    match answer_format with
    | VStr f =>
        if is_chart_shape f then
          match prepare_chart_data downloaded_data answer_text with
          | Some data =>
              let chart_type := determine_chart_type answer_text in
              match get plan "question" (VStr "Chart") with
              | Raise => Ret (VStr answer_text)
              | Ret question =>
                  match slice50 question with
                  | Raise => Ret (VStr answer_text)
                  | Ret title =>
                      match create_chart tr data chart_type title with
                      | Some base64_chart =>
                          if truthy base64_chart
                          then Ret (VStr base64_chart)
                          else Ret (VStr answer_text)
                      | None => Ret (VStr answer_text)
                      end
                  end
              end
          | None => Ret (VStr answer_text)
          end
        else Ret (VStr answer_text)
    | _ => Raise
    end.

(** [execute_solution_plan]: [VNone] is the failure signal. *)
Definition execute_solution_plan (plan quiz_url : value) (tr : trace)
    : value * trace :=
  match get plan "data_sources" (VList []) with
  | Raise => (VNone, tr)
  | Ret data_sources =>
      match get plan "answer_format" (VStr "string") with
      | Raise => (VNone, tr)
      | Ret answer_format =>
          match py_iter data_sources with
          | Raise => (VNone, tr)
          | Ret sources =>
              let (downloaded_data, tr1) := download_all sources tr in
              let tr2 := tr1 ++ [EvAnswerChat] in
              match chat_completion env tr1 with
              | Raise => (VNone, tr2)
              | Ret None => (VNone, tr2)
              | Ret (Some answer_content) =>
                  if truthy answer_content then
                    let answer_text := strip answer_content in
                    match coerce_answer plan answer_format downloaded_data
                            answer_text tr2 with
                    | Ret answer => (answer, tr2)
                    | Raise => (VNone, tr2)
                    end
                  else (VNone, tr2)
              end
          end
      end
  end.

(** Lines 172-185 of [analyze_and_solve]: repair of the submit URL. *)
Definition repair_submit_url (quiz_url submit_url : value) : py value :=
  match submit_url with
  | VStr s =>
      if truthy s && (contains placeholder s || negb (startswith s "http"))
      then
        if startswith s "/" then
          match urlparse env quiz_url with
          | Ret (scheme, netloc) =>
              Ret (VStr (scheme ++ "://" ++ netloc ++ s)%string)
          | Raise => Raise
          end
        else if contains placeholder s then
          match urlparse env quiz_url with
          | Ret (scheme, netloc) =>
              let s1 := replace s placeholder netloc in
              if negb (startswith s1 "http")
              then Ret (VStr (scheme ++ "://" ++ s1)%string)
              else Ret (VStr s1)
          | Raise => Raise
          end
        else
          match urljoin env quiz_url s with
          | Ret joined => Ret (VStr joined)
          | Raise => Raise
          end
      else Ret submit_url
  | _ =>
      (* a truthy object that is not a string has no [startswith] *)
      if value_truthy submit_url then Raise else Ret submit_url
  end.

(** The dictionary [analyze_and_solve] returns. *)
Record Solution : Type := {
  submit_url : value;
  answer : value
}.

(** Lines 160-168: the plan from the model's text. *)
Definition parse_plan (analysis : string) : py value :=
  match json_loads env analysis with
  | Ret plan => Ret plan
  | Raise =>
      let start_idx := find analysis "{" in
      let end_idx := rfind analysis "}" + 1 in
      if negb (start_idx =? -1) && (end_idx >? start_idx)
      then json_loads env (slice analysis start_idx end_idx)
      else Ret (VDict [("error", VStr "Could not parse JSON")])
  end.

(** [analyze_and_solve]: [None] is the failure signal. *)
Definition analyze_and_solve (quiz_content : string) (quiz_url : value)
    (tr : trace) : option Solution * trace :=
  let tr1 := tr ++ [EvPlanChat] in
  match chat_completion env tr with
  | Raise => (None, tr1)
  | Ret None => (None, tr1)
  | Ret (Some analysis) =>
      if truthy analysis then
        match parse_plan analysis with
        | Raise => (None, tr1)
        | Ret plan =>
            let (answer, tr2) := execute_solution_plan plan quiz_url tr1 in
            match get plan "submit_url" (VStr "") with
            | Raise => (None, tr2)
            | Ret submit_url =>
                match repair_submit_url quiz_url submit_url with
                | Raise => (None, tr2)
                | Ret submit_url' =>
                    (Some {| submit_url := submit_url'; answer := answer |},
                     tr2)
                end
            end
        end
      else (None, tr1)
  end.

(** [submit_answer]: the parsed body of a 200 response, else [None]. *)
Definition submit_answer (submit_url quiz_url answer : value) (tr : trace)
    : value * trace :=
  let tr1 := tr ++ [EvSubmit submit_url quiz_url answer] in
  match requests_post env tr submit_url quiz_url answer with
  | Ret (status_code, body) =>
      if status_code =? 200 then
        match body with
        | Ret response => (response, tr1)
        | Raise => (VNone, tr1)
        end
      else (VNone, tr1)
  | Raise => (VNone, tr1)
  end.

(** [solve_single_quiz]: the next URL, [None], or an exception (a truthy
    grading body that is not a dictionary has no [get]). *)
Definition solve_single_quiz (quiz_url : value) (tr : trace)
    : py value * trace :=
  let (quiz_content, tr1) := fetch_quiz_page quiz_url tr in
  match quiz_content with
  | VStr content =>
      if truthy content then
        let (solution, tr2) := analyze_and_solve content quiz_url tr1 in
        match solution with
        | None => (Ret VNone, tr2)
        | Some sol =>
            if value_truthy (submit_url sol) then
              let (response, tr3) :=
                submit_answer (submit_url sol) quiz_url (answer sol) tr2 in
              if value_truthy response then
                match get response "correct" VNone with
                | Raise => (Raise, tr3)
                | Ret correct =>
                    match get response "url" VNone with
                    | Raise => (Raise, tr3)
                    | Ret url =>
                        if value_truthy correct then (Ret url, tr3)
                        else if value_truthy url then (Ret url, tr3)
                        else (Ret VNone, tr3)
                    end
                end
              else (Ret VNone, tr3)
            else (Ret VNone, tr2)
        end
      else (Ret VNone, tr1)
  | _ => (Ret VNone, tr1)
  end.

(** One turn of the [while] loop of [solve_quiz_chain]: the loop
    condition, the time check, the increment, the step. *)
Definition chain_step (start_time : Q) (st : LoopState) : Step :=
  if value_truthy (current_url st) && (quiz_count st <? max_quizzes)%nat then
    let now := time_time env (events st) in
    let tr1 := events st ++ [EvTime] in
    if negb (Qle_bool (now - start_time) time_ceiling) then
      Stopped TimeLimitReached
        {| current_url := current_url st; quiz_count := quiz_count st;
           events := tr1 |}
    else
      let quiz_count' := S (quiz_count st) in
      let (result, tr2) := solve_single_quiz (current_url st) tr1 in
      match result with
      | Ret next_url =>
          if value_truthy next_url
          then Running {| current_url := next_url; quiz_count := quiz_count';
                          events := tr2 |}
          else Stopped Completed
                 {| current_url := current_url st; quiz_count := quiz_count';
                    events := tr2 |}
      | Raise =>
          Stopped StepFailed
            {| current_url := current_url st; quiz_count := quiz_count';
               events := tr2 |}
      end
  else
    Stopped
      (if value_truthy (current_url st) then StepLimitReached else EmptyUrl)
      st.

(** The loop; [None] only when [fuel] turns run without a stop. *)
Fixpoint chain_loop (fuel : nat) (start_time : Q) (st : LoopState)
    : option (StopReason * LoopState) :=
  match fuel with
  | O => None
  | S fuel' =>
      match chain_step start_time st with
      | Running st' => chain_loop fuel' start_time st'
      | Stopped reason st' => Some (reason, st')
      end
  end.

Definition initial_state (initial_url : value) : LoopState :=
  {| current_url := initial_url; quiz_count := 0; events := [EvTime] |}.

(** [solve_quiz_chain]: at most [max_quizzes] turns continue, so
    [S max_quizzes] turns of fuel reach a stop. *)
Definition solve_quiz_chain (initial_url : value)
    : option (StopReason * LoopState) :=
  let start_time := time_time env [] in
  chain_loop (S max_quizzes) start_time (initial_state initial_url).

(** *** Vocabulary of the statements *)

(** The resolver reaches its model call: the plan is a dictionary
    declaring [shape], its data sources [sources] can be iterated, and
    the model call made after the downloads returns [reply]. *)
Definition resolver_input (plan : value) (tr : trace) (shape : value)
    (sources : list value) (reply : option string) : Prop :=
  (exists data_sources,
      get plan "data_sources" (VList []) = Ret data_sources
      /\ py_iter data_sources = Ret sources)
  /\ get plan "answer_format" (VStr "string") = Ret shape
  /\ chat_completion env (snd (download_all sources tr)) = Ret reply.

(** The step on [quiz_url] started at trace [tr] submits an answer and
    [submit_answer] returns [response], leaving trace [tr']. *)
Definition graded (quiz_url : value) (tr : trace) (response : value)
    (tr' : trace) : Prop :=
  exists content tr1 sol tr2,
    fetch_quiz_page quiz_url tr = (VStr content, tr1)
    /\ truthy content = true
    /\ analyze_and_solve content quiz_url tr1 = (Some sol, tr2)
    /\ value_truthy (submit_url sol) = true
    /\ submit_answer (submit_url sol) quiz_url (answer sol) tr2
       = (response, tr').

(** [response.get('url')] of a grading response. *)
Definition next_url (response : value) : value :=
  match get response "url" VNone with
  | Ret url => url
  | Raise => VNone
  end.

(** Every step is graded, and every grading response names a next URL. *)
Definition always_next_url : Prop :=
  forall quiz_url tr,
    value_truthy quiz_url = true ->
    exists kvs tr',
      graded quiz_url tr (VDict kvs) tr'
      /\ value_truthy (next_url (VDict kvs)) = true.

(** The time check of a turn started at trace [tr] passes. *)
Definition in_time (start_time : Q) (tr : trace) : bool :=
  Qle_bool (time_time env tr - start_time) time_ceiling.

(** The states at which the loop condition is evaluated, in order. *)
Fixpoint loop_heads (fuel : nat) (start_time : Q) (st : LoopState)
    : list LoopState :=
  match fuel with
  | O => []
  | S fuel' =>
      st :: match chain_step start_time st with
            | Running st' => loop_heads fuel' start_time st'
            | Stopped _ _ => []
            end
  end.

(** The step of the turn at [st] is graded, and the grading response
    names a next URL. *)
Definition graded_with_next (st : LoopState) : Prop :=
  exists kvs tr',
    graded (current_url st) (events st ++ [EvTime]) (VDict kvs) tr'
    /\ value_truthy (next_url (VDict kvs)) = true.


End Methods.

(** Fetches, model calls, downloads and submissions: every event but a
    reading of the clock. *)
Definition is_service_call (e : event) : bool :=
  match e with
  | EvTime => false
  | _ => true
  end.

Definition service_calls (tr : trace) : trace := filter is_service_call tr.

(** The records [DataProcessor] builds ([process_csv], [process_json],
    [process_excel], [process_pdf], [process_html]). *)
Definition csv_record (dataframe summary : value) : value :=
  VDict [("type", VStr "csv"); ("dataframe", dataframe); ("summary", summary)].

Definition json_record (data : value) : value :=
  VDict [("type", VStr "json"); ("data", data)].

Definition excel_record (sheets : list (string * value)) : value :=
  VDict [("type", VStr "excel"); ("sheets", VDict sheets)].

Definition sheet (data summary : value) : value :=
  VDict [("data", data); ("summary", summary)].

Definition pdf_record (text : string) (tables : list value) : value :=
  VDict [("type", VStr "pdf"); ("text", VStr text); ("tables", VList tables)].

Definition html_record (text : string) (tables : list value) : value :=
  VDict [("type", VStr "html"); ("text", VStr text); ("tables", VList tables)].

End Solver.

(** ** Concrete environments

    Scripted services on which the definitions can be run. *)

Module Demo.
Import PyStr Solver.
Local Open Scope list_scope.

(** Text up to the first character satisfying [stop], and the rest. *)
Fixpoint break_at (stop : ascii -> bool) (s : string) : string * string :=
  match s with
  | EmptyString => (EmptyString, EmptyString)
  | String c s' =>
      if stop c then (EmptyString, s)
      else let (a, b) := break_at stop s' in (String c a, b)
  end.

(** Scheme and netloc of a URL of the form [scheme://netloc/...]. *)
Definition split_url (url : value) : py (string * string) :=
  match url with
  | VStr s =>
      let (scheme, rest) := break_at (Ascii.eqb ":") s in
      match rest with
      | String ":" (String "/" (String "/" after)) =>
          let (netloc, _) :=
            break_at (fun c => Ascii.eqb c "/" || Ascii.eqb c "?"
                               || Ascii.eqb c "#")%char after in
          Ret (scheme, netloc)
      | _ => Ret (EmptyString, EmptyString)
      end
  | _ => Raise
  end.

(** Rows of a column dictionary as [DataFrame.to_dict] writes it: the
    length of the first column. *)
Definition frame_len (d : value) : py nat :=
  match d with
  | VDict [] => Ret O
  | VDict ((_, VDict rows) :: _) => Ret (List.length rows)
  | _ => Raise
  end.

Definition quiz_page : string := "<html>POST your answer to /submit</html>".

(** A plan as the instruction contract of [analyze_and_solve] asks for. *)
Definition plan_with (sources submit_url answer_format : value) : value :=
  VDict [("question", VStr "How many rows?");
         ("data_sources", sources);
         ("analysis_needed", VStr "count");
         ("submit_url", submit_url);
         ("answer_format", answer_format)].

Definition demo_plan : value :=
  plan_with (VList []) (VStr "https://quiz.example/submit") (VStr "string").

Definition grading_with_next : value :=
  VDict [("correct", VBool false); ("reason", VStr "wrong");
         ("url", VStr "https://quiz.example/next")].

Definition grading_without_next : value :=
  VDict [("correct", VBool true)].

(** Every page loads, the model always answers [reply], every text
    parses to [plan], nothing can be downloaded or drawn, and the grader
    always sends [grading].  [clock] is the wall clock. *)
Definition scripted (clock : trace -> Q) (plan : value) (reply : string)
    (grading : value) : Env :=
  {| time_time := clock;
     page_content := fun _ _ => Ret quiz_page;
     requests_get := fun _ _ => Raise;
     chat_completion := fun _ => Ret (Some reply);
     json_loads := fun _ => Ret plan;
     fetch_and_process := fun _ _ => VNone;
     dataframe_len := frame_len;
     render_png := fun _ _ _ _ => Raise;
     requests_post := fun _ _ _ _ => Ret (200, Ret grading);
     urlparse := split_url;
     urljoin := fun _ s => Ret s |}.

(** A chain that never ends by itself. *)
Definition endless (clock : trace -> Q) : Env :=
  scripted clock demo_plan "7" grading_with_next.

(** The model replies [reply] to a plan declaring [answer_format]. *)
Definition replying (answer_format : string) (reply : string) : Env :=
  scripted (fun _ => 0%Q)
    (plan_with (VList []) (VStr "/submit") (VStr answer_format))
    reply grading_without_next.

(** The environment of the examples that involve no model call. *)
Definition quiet : Env := replying "string" "ok".

(** No time passes. *)
Definition frozen_clock : trace -> Q := fun _ => 0%Q.

(** Every recorded call takes ten seconds. *)
Definition slow_clock : trace -> Q :=
  fun tr => inject_Z (10 * Z.of_nat (List.length tr)).

Definition start_url : value := VStr "https://quiz.example/demo".

Definition shaped_plan (answer_format : string) : value :=
  plan_with (VList []) (VStr "/submit") (VStr answer_format).

(** One column [x] with the two rows 3 and 4. *)
Definition small_table : value :=
  VDict [("x", VDict [("0", VInt 3); ("1", VInt 4)])].

Definition small_object : value := VDict [("a", VInt 1)].

(** The state of the slow chain at the head of its fifth turn. *)
Definition late_state : LoopState :=
  nth 4 (loop_heads (endless slow_clock) (S max_quizzes) (slow_clock [])
           (initial_state start_url))
    (initial_state start_url).

End Demo.

(** ** The other files of the repository *)

(** *** Counting the calls of a run *)

Module Calls.
Import Solver.

Definition is_browser (e : event) : bool :=
  match e with
  | EvBrowser _ => true
  | _ => false
  end.

Definition is_submit (e : event) : bool :=
  match e with
  | EvSubmit _ _ _ => true
  | _ => false
  end.

(** Both call sites of the chat completion. *)
Definition is_chat (e : event) : bool :=
  match e with
  | EvPlanChat => true
  | EvAnswerChat => true
  | _ => false
  end.

Definition count (p : event -> bool) (tr : trace) : nat :=
  List.length (filter p tr).

End Calls.

(** *** [visualizer.py]: what [create_chart] draws *)

Module Visualizer.
Import Solver.

(** The plotting call of lines 19-31. *)
Inductive drawing : Type :=
| AxBar (d : value)
| AxPlot (d : value)
| AxPie (d : value)
| FramePlot (kind : string) (columns : value).

(** [None]: no branch matches and the axes stay empty; the figure is
    saved all the same. *)
Definition draw (data : chart_data) (chart_type : string) : option drawing :=
  if String.eqb chart_type "bar" then
    match data with
    | Dict d => Some (AxBar d)
    | Frame columns => Some (FramePlot "bar" columns)
    end
  else if String.eqb chart_type "line" then
    match data with
    | Dict d => Some (AxPlot d)
    | Frame columns => Some (FramePlot "line" columns)
    end
  else if String.eqb chart_type "pie" then
    match data with
    | Dict d => Some (AxPie d)
    | Frame _ => None
    end
  else None.

End Visualizer.

(** *** [data_processor.py]: the dispatch of [fetch_and_process] *)

Module DataProcessor.
Import PyStr Solver.
Local Open Scope list_scope.

(** [s.endswith(suffix)]: some tail of [s] is [suffix]. *)
Fixpoint endswith (s suffix : string) : bool :=
  String.eqb s suffix ||
  match s with
  | EmptyString => false
  | String _ s' => endswith s' suffix
  end.

(** What the method reads of the response of [requests.get]. *)
Record HttpResponse : Type := {
  status_code : Z;
  (** the [Content-Type] header, when there is one *)
  content_type_header : option string;
  content : string;
  text : string
}.

(** The network and the parsers behind the [process_*] methods; each
    [process_*] method catches its own exceptions and returns [None]. *)
Record Parsers : Type := {
  http_get : value -> py HttpResponse;
  process_pdf : string -> value;
  process_csv : string -> value;
  process_excel : string -> value;
  process_html : string -> value;
  loads : string -> py value
}.

Section Dispatch.

Variable lib : Parsers.

(** [process_json]. *)
Definition process_json (content : string) : value :=
  match loads lib content with
  | Ret data => json_record data
  | Raise => VNone
  end.

(** [url.endswith(suffix)] for one suffix or a tuple of them; only text
    has the method. *)
Definition url_endswith (url : value) (suffixes : list string) : py bool :=
  match url with
  | VStr u => Ret (existsb (endswith u) suffixes)
  | _ => Raise
  end.

(** [word in content_type or url.endswith(suffixes)]. *)
Definition marks (content_type word : string) (url : value)
    (suffixes : list string) : py bool :=
  if contains word content_type then Ret true else url_endswith url suffixes.

(** [fetch_and_process]: a record, the raw text, or [None]. *)
Definition fetch_and_process (url : value) : value :=
  match http_get lib url with
  | Raise => VNone
  | Ret response =>
      if negb (status_code response =? 200) then VNone
      else
        let content_type :=
          lower (match content_type_header response with
                 | Some header => header
                 | None => EmptyString
                 end) in
        match marks content_type "pdf" url [".pdf"] with
        | Raise => VNone
        | Ret true => process_pdf lib (content response)
        | Ret false =>
        match marks content_type "csv" url [".csv"] with
        | Raise => VNone
        | Ret true => process_csv lib (content response)
        | Ret false =>
        match marks content_type "json" url [".json"] with
        | Raise => VNone
        | Ret true => process_json (content response)
        | Ret false =>
        match marks content_type "excel" url [".xlsx"; ".xls"] with
        | Raise => VNone
        | Ret true => process_excel lib (content response)
        | Ret false =>
            if contains "html" content_type
            then process_html lib (content response)
            else VStr (text response)
        end end end end
  end.

End Dispatch.

End DataProcessor.

(** *** [app.py]: the endpoint that starts a chain *)

Module Acceptance.
Import PyStr Solver.
Local Open Scope list_scope.

(** The reply of the view; [Unhandled] is an exception that leaves it. *)
Inductive http_reply : Type :=
| Reply (status : Z) (body : list (string * value))
| Unhandled.

(** The arguments of the thread the view starts. *)
Record Worker : Type := {
  email : value;
  secret : value;
  url : value
}.

(** [quiz_endpoint]: [get_json] is the outcome of [request.get_json()],
    [EXPECTED_SECRET] the configured secret. *)
Definition quiz_endpoint (EXPECTED_SECRET : string) (get_json : py value)
    : http_reply * option Worker :=
  match get_json with
  | Raise => (Reply 400 [("error", VStr "Invalid JSON")], None)
  | Ret data =>
      if negb (value_truthy data)
      then (Reply 400 [("error", VStr "Invalid JSON")], None)
      else
        match get data "email" VNone, get data "secret" VNone,
              get data "url" VNone with
        | Ret email, Ret secret, Ret url =>
            if negb (is_str secret EXPECTED_SECRET)
            then (Reply 403 [("error", VStr "Invalid secret")], None)
            else if negb (value_truthy url)
            then (Reply 400 [("error", VStr "Missing URL")], None)
            else (Reply 200 [("status", VStr "accepted");
                             ("message", VStr "Quiz solving process started")],
                  Some {| email := email; secret := secret; url := url |})
        | _, _, _ => (Unhandled, None)
        end
  end.

(** [solve_quiz_async]: the chain the thread runs. *)
Definition solve_quiz_async (env : Env) (w : Worker)
    : option (StopReason * LoopState) :=
  solve_quiz_chain env (url w).

End Acceptance.

(** *** Vocabulary of the statements about steps *)

Module Steps.
Import PyStr Solver Calls.
Local Open Scope list_scope.

(** The plan of line 168, when the model's text holds no JSON. *)
Definition error_plan : value :=
  VDict [("error", VStr "Could not parse JSON")].

(** [tr'] is [tr] followed by calls: exactly [browser] page loads, at
    most [submit] submissions and at most [chat] model calls. *)
Definition grows (tr tr' : trace) (browser submit chat : nat) : Prop :=
  exists suffix,
    tr' = tr ++ suffix
    /\ count is_browser suffix = browser
    /\ (count is_submit suffix <= submit)%nat
    /\ (count is_chat suffix <= chat)%nat.

Section WithEnv.

Variable env : Env.

(** The step on [quiz_url] started at trace [tr] gets as far as the
    submission, with solution [sol] at trace [tr2]. *)
Definition reaches_submission (quiz_url : value) (tr : trace) (sol : Solution)
    (tr2 : trace) : Prop :=
  exists content tr1,
    fetch_quiz_page env quiz_url tr = (VStr content, tr1)
    /\ truthy content = true
    /\ analyze_and_solve env content quiz_url tr1 = (Some sol, tr2)
    /\ value_truthy (submit_url sol) = true.

(** The turn at [st] passes the loop condition and the time check. *)
Definition turn_runs (start_time : Q) (st : LoopState) : Prop :=
  value_truthy (current_url st) = true
  /\ (quiz_count st < max_quizzes)%nat
  /\ in_time env start_time (events st) = true.

End WithEnv.

End Steps.

(** *** More scripted environments *)

Module Scenarios.
Import PyStr Solver.
Local Open Scope list_scope.

(** [Demo.scripted] with the pieces that vary from one scenario to the
    next. *)
Definition stage (page : trace -> value -> py string)
    (fallback : trace -> value -> py (Z * string))
    (chat : trace -> py (option string)) (parse : string -> py value)
    (download : trace -> value -> value)
    (render : trace -> chart_data -> string -> value -> py string)
    (post : trace -> value -> value -> value -> py (Z * py value)) : Env :=
  {| time_time := Demo.frozen_clock;
     page_content := page;
     requests_get := fallback;
     chat_completion := chat;
     json_loads := parse;
     fetch_and_process := download;
     dataframe_len := Demo.frame_len;
     render_png := render;
     requests_post := post;
     urlparse := Demo.split_url;
     urljoin := fun _ s => Ret s |}.

Definition page_ok : trace -> value -> py string :=
  fun _ _ => Ret Demo.quiz_page.

Definition no_fallback : trace -> value -> py (Z * string) :=
  fun _ _ => Raise.

Definition says (reply : string) : trace -> py (option string) :=
  fun _ => Ret (Some reply).

Definition parses_to (plan : value) : string -> py value :=
  fun _ => Ret plan.

Definition no_download : trace -> value -> value := fun _ _ => VNone.

Definition no_render : trace -> chart_data -> string -> value -> py string :=
  fun _ _ _ _ => Raise.

Definition grades (grading : value)
    : trace -> value -> value -> value -> py (Z * py value) :=
  fun _ _ _ _ => Ret (200, Ret grading).

(** The browser cannot start and the network is down. *)
Definition offline : Env :=
  stage (fun _ _ => Raise) no_fallback (says "7") (parses_to Demo.demo_plan)
    no_download no_render (grades Demo.grading_with_next).

(** The model answers in prose and nothing parses. *)
Definition babbling : Env :=
  stage page_ok no_fallback (says "I cannot tell") (fun _ => Raise)
    no_download no_render (grades Demo.grading_with_next).

(** The model gives a plan, and then nothing when asked for the answer. *)
Definition silent_resolver : Env :=
  stage page_ok no_fallback
    (fun tr => match rev tr with
               | EvPlanChat :: _ => Ret None
               | _ => Ret (Some "{plan}")
               end)
    (parses_to Demo.demo_plan) no_download no_render
    (grades Demo.grading_without_next).

(** The grader answers every submission with a server error. *)
Definition rejecting : Env :=
  stage page_ok no_fallback (says "7") (parses_to Demo.demo_plan)
    no_download no_render (fun _ _ _ _ => Ret (500, Raise)).

(** The grader answers with a JSON array. *)
Definition odd_grader : Env :=
  stage page_ok no_fallback (says "7") (parses_to Demo.demo_plan)
    no_download no_render (grades (VList [VInt 1])).

(** A plan with one csv source and an image as the answer; the download
    and the renderer work. *)
Definition chart_plan : value :=
  Demo.plan_with (VList [VStr "https://quiz.example/data.csv"])
    (VStr "https://quiz.example/submit") (VStr "base64_image").

Definition charting : Env :=
  stage page_ok no_fallback (says "a bar chart of x") (parses_to chart_plan)
    (fun _ _ => csv_record Demo.small_table VNone)
    (fun _ _ _ _ => Ret "iVBORw0KGgo=")
    (grades Demo.grading_without_next).

(** A server that labels everything as JSON and sends an object. *)
Definition json_site : DataProcessor.Parsers :=
  {| DataProcessor.http_get := fun _ =>
       Ret {| DataProcessor.status_code := 200;
              DataProcessor.content_type_header :=
                Some "Application/JSON; charset=utf-8";
              DataProcessor.content := "{object}";
              DataProcessor.text := "{object}" |};
     DataProcessor.process_pdf := fun _ => pdf_record "report" [];
     DataProcessor.process_csv := fun _ => csv_record Demo.small_table VNone;
     DataProcessor.process_excel := fun _ => VNone;
     DataProcessor.process_html := fun _ => html_record "page" [];
     DataProcessor.loads := fun _ => Ret Demo.small_object |}.


(** The solver with [DataProcessor.fetch_and_process] as its downloader. *)
Definition downloading (lib : DataProcessor.Parsers) : Env :=
  stage page_ok no_fallback (says "7") (parses_to Demo.demo_plan)
    (fun _ url => DataProcessor.fetch_and_process lib url) no_render
    (grades Demo.grading_without_next).

(** The model's text parses to a JSON array instead of an object. *)
Definition listing : Env :=
  stage page_ok no_fallback (says "[1]") (parses_to (VList [VInt 1]))
    no_download no_render (grades Demo.grading_with_next).

(** A request as the endpoint expects it, with the secret it carries. *)
Definition request (secret : value) (url : value) : py value :=
  Ret (VDict [("email", VStr "student@example.com"); ("secret", secret);
              ("url", url)]).




(** [n] times the digit one. *)
Fixpoint ones (n : nat) : string :=
  match n with
  | O => EmptyString
  | S k => String "1" (ones k)
  end.

(** A chain of two quizzes: the grader names a next URL for the first
    submission and none after that. *)
Definition two_quizzes : Env :=
  stage page_ok no_fallback (says "7") (parses_to Demo.demo_plan)
    no_download no_render
    (fun tr _ _ _ =>
       if existsb Calls.is_submit tr
       then Ret (200, Ret Demo.grading_without_next)
       else Ret (200, Ret Demo.grading_with_next)).

(** A state in the middle of a chain, at the head of a turn. *)
Definition midway : LoopState :=
  {| current_url := Demo.start_url; quiz_count := 3;
     events := [EvTime; EvTime] |}.

End Scenarios.

(** ** Facts about the string operations *)

Module PyStrFacts.
Import PyStr.

Lemma isspace_lower_char (c : ascii) : isspace (lower_char c) = isspace c.
Proof.
  destruct c as [b0 b1 b2 b3 b4 b5 b6 b7];
    destruct b0, b1, b2, b3, b4, b5, b6, b7; reflexivity.
Qed.

Lemma lower_lstrip (s : string) : lower (lstrip s) = lstrip (lower s).
Proof.
  induction s as [|c s IH]; simpl; [reflexivity|].
  rewrite isspace_lower_char. now destruct (isspace c).
Qed.

Lemma lower_rstrip (s : string) : lower (rstrip s) = rstrip (lower s).
Proof.
  induction s as [|c s IH]; simpl; [reflexivity|].
  rewrite <- IH, isspace_lower_char.
  destruct (rstrip s); simpl; [now destruct (isspace c)|reflexivity].
Qed.

Lemma lower_strip (s : string) : lower (strip s) = strip (lower s).
Proof. unfold strip. now rewrite lower_rstrip, lower_lstrip. Qed.

Lemma prefix_nil (s : string) : String.prefix EmptyString s = true.
Proof. now destruct s. Qed.

Lemma contains_nil (s : string) : contains EmptyString s = true.
Proof. destruct s; reflexivity. Qed.

(** [rstrip] keeps the first character unless everything is dropped. *)
Lemma rstrip_cons (c : ascii) (s : string) :
  rstrip (String c s) = EmptyString
  \/ rstrip (String c s) = String c (rstrip s).
Proof.
  simpl. destruct (rstrip s); [destruct (isspace c)|]; auto.
Qed.

Lemma rstrip_nil_space (c : ascii) (s : string) :
  rstrip (String c s) = EmptyString ->
  isspace c = true /\ rstrip s = EmptyString.
Proof.
  simpl. destruct (rstrip s); [destruct (isspace c)|]; auto; discriminate.
Qed.

Lemma prefix_rstrip (s t : string) :
  no_space t = true -> String.prefix t (rstrip s) = String.prefix t s.
Proof.
  revert t. induction s as [|c s IH]; intros t Ht; [reflexivity|].
  destruct t as [|a t]; [now rewrite !prefix_nil|].
  simpl in Ht. apply andb_true_iff in Ht as [Ha Ht].
  destruct (rstrip_cons c s) as [E|E]; rewrite E.
  - apply rstrip_nil_space in E as [Hc _]. simpl.
    destruct (ascii_dec a c) as [->|]; [|reflexivity].
    rewrite Hc in Ha. discriminate.
  - simpl. destruct (ascii_dec a c); [now apply IH|reflexivity].
Qed.

Lemma contains_rstrip (s t : string) :
  no_space t = true -> contains t (rstrip s) = contains t s.
Proof.
  intros Ht. induction s as [|c s IH]; [reflexivity|].
  change (contains t (String c s))
    with (String.prefix t (String c s) || contains t s).
  rewrite <- (prefix_rstrip (String c s) t Ht), <- IH.
  destruct (rstrip_cons c s) as [E|E].
  - rewrite E. apply rstrip_nil_space in E as [_ E']. rewrite E'.
    simpl. now destruct t.
  - now rewrite E.
Qed.

Lemma contains_lstrip (s t : string) :
  no_space t = true -> contains t (lstrip s) = contains t s.
Proof.
  intros Ht. induction s as [|c s IH]; [reflexivity|].
  simpl lstrip. destruct (isspace c) eqn:Hc; [|reflexivity].
  rewrite IH. destruct t as [|a t]; [now rewrite !contains_nil|].
  simpl in Ht. apply andb_true_iff in Ht as [Ha _].
  simpl. destruct (ascii_dec a c) as [->|]; [|reflexivity].
  rewrite Hc in Ha. discriminate.
Qed.

(** Trimming cannot hide or create an occurrence of a needle without
    white space. *)
Lemma contains_strip (s t : string) :
  no_space t = true -> contains t (strip s) = contains t s.
Proof.
  intros Ht. unfold strip. now rewrite contains_rstrip, contains_lstrip.
Qed.

Lemma has_digit_lstrip (s : string) :
  has_digit s = false -> has_digit (lstrip s) = false.
Proof.
  induction s as [|c s IH]; simpl; [reflexivity|].
  intros H. apply orb_false_iff in H as [Hc Hs].
  destruct (isspace c); [now apply IH|]. simpl. now rewrite Hc, Hs.
Qed.

Lemma has_digit_rstrip (s : string) :
  has_digit s = false -> has_digit (rstrip s) = false.
Proof.
  induction s as [|c s IH]; [reflexivity|].
  intros H. simpl in H. apply orb_false_iff in H as [Hc Hs].
  destruct (rstrip_cons c s) as [E|E]; rewrite E; [reflexivity|].
  simpl. now rewrite Hc, IH.
Qed.

Lemma has_digit_strip (s : string) :
  has_digit s = false -> has_digit (strip s) = false.
Proof. intros H. now apply has_digit_rstrip, has_digit_lstrip. Qed.

Lemma span_digits_no_digit (s : string) :
  has_digit s = false -> span_digits s = (EmptyString, s).
Proof.
  destruct s as [|c s]; [reflexivity|]. simpl.
  intros H. apply orb_false_iff in H as [-> _]. reflexivity.
Qed.

Lemma match_number_no_digit (s : string) :
  has_digit s = false -> match_number s = None.
Proof.
  intros H. unfold match_number. destruct s as [|c s].
  - reflexivity.
  - destruct (Ascii.eqb c "-").
    + simpl in H. apply orb_false_iff in H as [_ H].
      now rewrite (span_digits_no_digit s H).
    + now rewrite (span_digits_no_digit _ H).
Qed.

Lemma findall_aux_no_digit (s : string) :
  has_digit s = false -> forall skip, findall_aux skip s = [].
Proof.
  induction s as [|c s IH]; intros H skip; [reflexivity|].
  pose proof (match_number_no_digit _ H) as Hm.
  simpl in H. apply orb_false_iff in H as [_ Hs].
  cbn [findall_aux]. rewrite Hm. destruct skip; now apply IH.
Qed.

Lemma match_number_digit (c : ascii) (s : string) :
  isdigit c = true -> match_number (String c s) <> None.
Proof.
  intros Hc. unfold match_number.
  destruct (Ascii.eqb_spec c "-") as [->|_]; [discriminate|].
  simpl span_digits. rewrite Hc. destruct (span_digits s) as [ds rest].
  cbn [truthy].
  destruct rest as [|d rest']; [|destruct (Ascii.eqb d ".")];
    match goal with |- context [span_digits ?x] => destruct (span_digits x) end;
    discriminate.
Qed.

(** The pattern finds nothing exactly in the texts without a digit. *)
Lemma findall_number_nil (s : string) :
  findall_number s = [] <-> has_digit s = false.
Proof.
  split; [|intros H; now apply findall_aux_no_digit].
  unfold findall_number. induction s as [|c s IH]; [reflexivity|].
  cbn [findall_aux].
  destruct (match_number (String c s)) eqn:Hm; [discriminate|].
  intros H. simpl. rewrite (IH H), orb_false_r.
  destruct (isdigit c) eqn:Hc; [|reflexivity].
  now destruct (match_number_digit c s Hc).
Qed.



End PyStrFacts.

(** ** Plan extractor: repair of the submit URL *)

Module PlanExtractor.
Import PyStr Solver.
Local Open Scope list_scope.

Lemma startswith_cons (s : string) (c : ascii) :
  startswith s (String c EmptyString) = true ->
  exists s', s = String c s'.
Proof.
  unfold startswith. destruct s as [|a s']; simpl; [discriminate|].
  destruct (ascii_dec c a) as [->|]; [|discriminate].
  intros _. now exists s'.
Qed.

Lemma contains_truthy (sub s : string) :
  truthy sub = true -> contains sub s = true -> truthy s = true.
Proof.
  destruct sub; [discriminate|]. destruct s; [discriminate|reflexivity].
Qed.

Section Repair.

Variable env : Env.
Variable quiz_url : value.

(** How the repaired URL reaches the caller: when the model's text parses
    to a plan, the solution carries the repaired [submit_url] of the plan. *)
Lemma analyze_and_solve_submit_url content tr analysis plan url url' :
  chat_completion env tr = Ret (Some analysis) ->
  truthy analysis = true ->
  parse_plan env analysis = Ret plan ->
  get plan "submit_url" (VStr "") = Ret url ->
  repair_submit_url env quiz_url url = Ret url' ->
  exists sol tr',
    analyze_and_solve env content quiz_url tr = (Some sol, tr')
    /\ submit_url sol = url'.
Proof.
  intros Hchat Htruthy Hplan Hget Hrep. unfold analyze_and_solve.
  rewrite Hchat, Htruthy, Hplan.
  destruct (execute_solution_plan env plan quiz_url (tr ++ [EvPlanChat]))
    as [ans tr2].
  rewrite Hget, Hrep. eauto.
Qed.

(** C4: a submit URL that starts with a slash is repaired to the quiz
    URL's scheme, ["://"], the quiz URL's netloc and the path itself. *)
Theorem repair_leading_slash (s scheme netloc : string) :
  startswith s "/" = true ->
  urlparse env quiz_url = Ret (scheme, netloc) ->
  repair_submit_url env quiz_url (VStr s)
  = Ret (VStr (scheme ++ "://" ++ netloc ++ s)%string).
Proof.
  intros Hslash Hparse.
  destruct (startswith_cons _ _ Hslash) as [s' ->].
  unfold repair_submit_url. rewrite Hslash, Hparse.
  replace (startswith (String "/" s') "http") with false by reflexivity.
  now rewrite orb_true_r.
Qed.

(** C10: a non-empty submit URL that starts with [http] and holds no
    placeholder is returned as it is. *)
Theorem repair_absolute_unchanged (s : string) :
  truthy s = true ->
  startswith s "http" = true ->
  contains placeholder s = false ->
  repair_submit_url env quiz_url (VStr s) = Ret (VStr s).
Proof.
  intros Hne Hhttp Hph. unfold repair_submit_url.
  now rewrite Hne, Hhttp, Hph.
Qed.

(** C5, amended: a submit URL that holds the placeholder and does not
    start with a slash has every placeholder replaced by the quiz URL's
    netloc, and gets the quiz URL's scheme and ["://"] in front unless
    the replaced text starts with [http]. *)
Theorem repair_placeholder (s scheme netloc : string) :
  contains placeholder s = true ->
  startswith s "/" = false ->
  urlparse env quiz_url = Ret (scheme, netloc) ->
  repair_submit_url env quiz_url (VStr s)
  = Ret (VStr (let replaced := replace s placeholder netloc in
               if startswith replaced "http" then replaced
               else (scheme ++ "://" ++ replaced)%string)).
Proof.
  intros Hph Hslash Hparse. unfold repair_submit_url.
  rewrite (contains_truthy placeholder s eq_refl Hph), Hph, Hslash, Hparse.
  cbn [andb orb]. cbv zeta.
  now destruct (startswith (replace s placeholder netloc) "http").
Qed.

End Repair.

Lemma repair_leading_slash_witness :
  repair_submit_url (Demo.endless Demo.frozen_clock) Demo.start_url (VStr "/submit")
  = Ret (VStr "https://quiz.example/submit").
Proof.
  apply (repair_leading_slash (Demo.endless Demo.frozen_clock) Demo.start_url
           "/submit" "https" "quiz.example"); reflexivity.
Defined.

Lemma repair_absolute_unchanged_witness :
  repair_submit_url (Demo.endless Demo.frozen_clock) Demo.start_url
    (VStr "https://grader.example/submit")
  = Ret (VStr "https://grader.example/submit").
Proof.
  apply (repair_absolute_unchanged (Demo.endless Demo.frozen_clock)
           Demo.start_url "https://grader.example/submit"); reflexivity.
Defined.

Lemma repair_placeholder_witness :
  repair_submit_url (Demo.endless Demo.frozen_clock) Demo.start_url
    (VStr "current-page-url/submit")
  = Ret (VStr "https://quiz.example/submit").
Proof.
  apply (repair_placeholder (Demo.endless Demo.frozen_clock) Demo.start_url
           "current-page-url/submit" "https" "quiz.example"); reflexivity.
Defined.

(** Counterexample to C5 as stated, a path that holds the placeholder:
    the slash rule comes first, and the placeholder stays in the repaired
    URL. *)
Lemma repair_placeholder_after_slash :
  contains placeholder "/current-page-url/submit" = true
  /\ Demo.split_url Demo.start_url = Ret ("https", "quiz.example")
  /\ repair_submit_url (Demo.endless Demo.frozen_clock) Demo.start_url
       (VStr "/current-page-url/submit")
     = Ret (VStr "https://quiz.example/current-page-url/submit")
  /\ contains placeholder "https://quiz.example/current-page-url/submit" = true
  /\ replace "/current-page-url/submit" placeholder "quiz.example"
     = "/quiz.example/submit".
Proof. repeat split; reflexivity. Qed.

End PlanExtractor.

(** ** Answer resolver *)

Module AnswerResolver.
Import PyStr PyStrFacts Solver.
Local Open Scope list_scope.

Section Resolver.

Variable env : Env.
Variables plan quiz_url : value.
Variable tr : trace.
Variable sources : list value.

(** Behind a non-empty reply the method is the coercion of the trimmed
    reply. *)
Lemma execute_solution_plan_reply shape content :
  resolver_input env plan tr shape sources (Some content) ->
  truthy content = true ->
  execute_solution_plan env plan quiz_url tr
  = (match coerce_answer env plan shape (fst (download_all env sources tr))
             (strip content)
             (snd (download_all env sources tr) ++ [EvAnswerChat]) with
     | Ret answer => answer
     | Raise => VNone
     end, snd (download_all env sources tr) ++ [EvAnswerChat]).
Proof.
  intros [[ds [Hds Hit]] [Hfmt Hchat]] Hne.
  unfold execute_solution_plan.
  rewrite Hds, Hfmt, Hit.
  destruct (download_all env sources tr) as [dd tr1]. simpl in *.
  rewrite Hchat, Hne.
  now destruct (coerce_answer env plan shape dd (strip content)
                  (tr1 ++ [EvAnswerChat])).
Qed.

(** An empty reply is the failure signal. *)
Lemma execute_solution_plan_empty shape reply :
  resolver_input env plan tr shape sources reply ->
  reply = None \/ reply = Some EmptyString ->
  fst (execute_solution_plan env plan quiz_url tr) = VNone.
Proof.
  intros [[ds [Hds Hit]] [Hfmt Hchat]] Hreply.
  unfold execute_solution_plan. rewrite Hds, Hfmt, Hit.
  destruct (download_all env sources tr) as [dd tr1]. simpl in *.
  rewrite Hchat. now destruct Hreply as [-> | ->].
Qed.

(** C3, amended: for the shape [number], the reply "The answer is 42."
    resolves to the float 42.0, because the token is "42." with the full
    stop; "The answer is 42" resolves to the integer 42; "Total: 3.14
    units" resolves to the float 3.14; and a non-empty reply without a
    numeric token resolves to the trimmed reply. *)
Theorem number_coercion :
  (resolver_input env plan tr (VStr "number") sources (Some "The answer is 42.") ->
   fst (execute_solution_plan env plan quiz_url tr) = VFloat 42)
  /\ (resolver_input env plan tr (VStr "number") sources (Some "The answer is 42") ->
      fst (execute_solution_plan env plan quiz_url tr) = VInt 42)
  /\ (resolver_input env plan tr (VStr "number") sources (Some "Total: 3.14 units") ->
      fst (execute_solution_plan env plan quiz_url tr) = VFloat (157 # 50))
  /\ (forall content,
        resolver_input env plan tr (VStr "number") sources (Some content) ->
        truthy content = true ->
        findall_number content = [] ->
        fst (execute_solution_plan env plan quiz_url tr) = VStr (strip content)).
Proof.
  repeat split.
  1-3: intros H; rewrite (execute_solution_plan_reply _ _ H eq_refl);
       reflexivity.
  intros content H Hne Hnone.
  rewrite (execute_solution_plan_reply _ _ H Hne). cbn [fst].
  unfold coerce_answer. cbn [is_str String.eqb Ascii.eqb Bool.eqb].
  apply findall_number_nil, has_digit_strip, findall_number_nil in Hnone.
  now rewrite Hnone.
Qed.

(** C6: for the shape [boolean] the answer is [True] exactly when the
    lower-cased reply holds "true" or "yes"; a non-empty reply with
    neither resolves to [False], as do "No" and "It depends"; "Yes, that
    is correct" resolves to [True]. *)
Theorem boolean_coercion :
  (forall content,
      resolver_input env plan tr (VStr "boolean") sources (Some content) ->
      (fst (execute_solution_plan env plan quiz_url tr) = VBool true
       <-> contains "true" (lower content) || contains "yes" (lower content)
           = true)
      /\ (truthy content = true ->
          contains "true" (lower content) || contains "yes" (lower content)
          = false ->
          fst (execute_solution_plan env plan quiz_url tr) = VBool false))
  /\ (resolver_input env plan tr (VStr "boolean") sources (Some "Yes, that is correct") ->
      fst (execute_solution_plan env plan quiz_url tr) = VBool true)
  /\ (resolver_input env plan tr (VStr "boolean") sources (Some "No") ->
      fst (execute_solution_plan env plan quiz_url tr) = VBool false)
  /\ (resolver_input env plan tr (VStr "boolean") sources (Some "It depends") ->
      fst (execute_solution_plan env plan quiz_url tr) = VBool false).
Proof.
  assert (Hgen : forall content,
             resolver_input env plan tr (VStr "boolean") sources (Some content) ->
             truthy content = true ->
             fst (execute_solution_plan env plan quiz_url tr)
             = VBool (contains "true" (lower content)
                      || contains "yes" (lower content))).
  { intros content H Hne.
    rewrite (execute_solution_plan_reply _ _ H Hne). cbn [fst].
    unfold coerce_answer. cbn [is_str String.eqb Ascii.eqb Bool.eqb].
    rewrite lower_strip, !contains_strip by reflexivity. reflexivity. }
  split; [|repeat split; intros H; now rewrite (Hgen _ H eq_refl)].
  intros content H. destruct (truthy content) eqn:Hne.
  - rewrite (Hgen _ H Hne).
    generalize (contains "true" (lower content)
                || contains "yes" (lower content)).
    intros b. split; [split|]; [now intros [= ->]|now intros ->|now intros _ ->].
  - destruct content; [|discriminate].
    rewrite (execute_solution_plan_empty _ _ H) by now right.
    repeat split; discriminate.
Qed.


(** One round of the loop of [prepare_chart_data] on each kind of record:
    a csv record yields its frame when the column dictionary is non-empty
    and has rows, an excel record the frame of its first sheet on the same
    terms, a json record its data when that is a dictionary, and pdf and
    html records nothing. *)
Lemma chart_item_records :
  (forall dataframe summary,
      chart_item env (csv_record dataframe summary)
      = if value_truthy dataframe then nonempty_frame env dataframe
        else Ret None)
  /\ (forall name data summary more,
         chart_item env (excel_record ((name, sheet data summary) :: more))
         = if value_truthy data then nonempty_frame env data else Ret None)
  /\ chart_item env (excel_record []) = Ret None
  /\ (forall data,
         chart_item env (json_record data)
         = Ret (match data with
                | VDict _ => Some (Dict data)
                | _ => None
                end))
  /\ (forall text tables, chart_item env (pdf_record text tables) = Ret None)
  /\ (forall text tables, chart_item env (html_record text tables) = Ret None).
Proof.
  repeat split; try reflexivity. intros data. now destruct data.
Qed.

(** C9, amended: [prepare_chart_data] scans the data in the order of
    the list and returns the data of the first datum that yields any,
    provided every datum before it is a record that yields none without
    raising; the kinds are not ranked, so whatever comes later, tabular or
    not, is not looked at.  A csv record yields its frame when the column
    dictionary is non-empty and the frame has rows, an excel record the
    frame of its first sheet on the same terms, a json record its data
    when that is a dictionary, empty or not; pdf and html records yield
    nothing. *)
Theorem first_usable_datum :
  (forall before data_item after data answer_text,
      (forall earlier, In earlier before -> chart_item env earlier = Ret None) ->
      chart_item env data_item = Ret (Some data) ->
      prepare_chart_data env (before ++ data_item :: after) answer_text
      = Some data)
  /\ (forall d n,
         dataframe_len env d = Ret n ->
         nonempty_frame env d
         = Ret (if (0 <? n)%nat then Some (Frame d) else None))
  /\ (forall dataframe summary,
         chart_item env (csv_record dataframe summary)
         = if value_truthy dataframe then nonempty_frame env dataframe
           else Ret None)
  /\ (forall name data summary more,
         chart_item env (excel_record ((name, sheet data summary) :: more))
         = if value_truthy data then nonempty_frame env data else Ret None)
  /\ chart_item env (excel_record []) = Ret None
  /\ (forall data,
         chart_item env (json_record data)
         = Ret (match data with
                | VDict _ => Some (Dict data)
                | _ => None
                end))
  /\ (forall text tables, chart_item env (pdf_record text tables) = Ret None)
  /\ (forall text tables, chart_item env (html_record text tables) = Ret None).
Proof.
  split.
  - intros before data_item after data answer_text Hbefore Hitem.
    assert (Hloop : chart_loop env (before ++ data_item :: after)
                    = Ret (Some data)).
    { induction before as [|x before IH]; simpl.
      - now rewrite Hitem.
      - rewrite (Hbefore x (or_introl eq_refl)).
        apply IH. intros earlier Hin. apply Hbefore. now right. }
    unfold prepare_chart_data. rewrite Hloop.
    now destruct (before ++ data_item :: after).
  - split.
    + intros d n Hlen. unfold nonempty_frame. now rewrite Hlen.
    + repeat split; try reflexivity. intros data. now destruct data.
Qed.

End Resolver.

(** The scripted environment feeds the resolver as announced. *)
Lemma replying_input (answer_format reply : string) (tr : trace) :
  resolver_input (Demo.replying answer_format reply)
    (Demo.shaped_plan answer_format) tr (VStr answer_format) [] (Some reply).
Proof.
  split; [|split]; try reflexivity. exists (VList []). now split.
Qed.

Lemma number_coercion_witness :
  fst (execute_solution_plan (Demo.replying "number" "The answer is 42.")
         (Demo.shaped_plan "number") Demo.start_url [])
  = VFloat 42
  /\ fst (execute_solution_plan (Demo.replying "number" "The answer is 42")
            (Demo.shaped_plan "number") Demo.start_url [])
     = VInt 42
  /\ fst (execute_solution_plan (Demo.replying "number" "Total: 3.14 units")
            (Demo.shaped_plan "number") Demo.start_url [])
     = VFloat (157 # 50)
  /\ fst (execute_solution_plan (Demo.replying "number" "  no idea ")
            (Demo.shaped_plan "number") Demo.start_url [])
     = VStr "no idea".
Proof.
  refine (conj _ (conj _ (conj _ _))).
  - apply (proj1 (number_coercion
                    (Demo.replying "number" "The answer is 42.")
                    (Demo.shaped_plan "number") Demo.start_url [] [])).
    apply replying_input.
  - apply (proj1 (proj2 (number_coercion
                    (Demo.replying "number" "The answer is 42")
                    (Demo.shaped_plan "number") Demo.start_url [] []))).
    apply replying_input.
  - apply (proj1 (proj2 (proj2 (number_coercion
                    (Demo.replying "number" "Total: 3.14 units")
                    (Demo.shaped_plan "number") Demo.start_url [] [])))).
    apply replying_input.
  - apply (proj2 (proj2 (proj2
             (number_coercion (Demo.replying "number" "  no idea ")
                (Demo.shaped_plan "number") Demo.start_url [] [])))
             "  no idea ");
      [apply replying_input|reflexivity|reflexivity].
Defined.

(** Counterexample to C3 as stated: the reply "The answer is 42."
    resolves to a float, not to the integer 42, and a reply without a
    numeric token resolves to its trimmed text, not to the reply itself. *)
Lemma full_stop_makes_float :
  fst (execute_solution_plan (Demo.replying "number" "The answer is 42.")
         (Demo.shaped_plan "number") Demo.start_url [])
  = VFloat 42
  /\ VFloat 42 <> VInt 42
  /\ findall_number "The answer is 42." = ["42."]
  /\ findall_number " n/a " = []
  /\ fst (execute_solution_plan (Demo.replying "number" " n/a ")
            (Demo.shaped_plan "number") Demo.start_url [])
     = VStr "n/a"
  /\ VStr "n/a" <> VStr " n/a ".
Proof. repeat split; try reflexivity; discriminate. Qed.

Lemma boolean_coercion_witness :
  fst (execute_solution_plan (Demo.replying "boolean" "Yes, that is correct")
         (Demo.shaped_plan "boolean") Demo.start_url [])
  = VBool true
  /\ fst (execute_solution_plan (Demo.replying "boolean" "No")
            (Demo.shaped_plan "boolean") Demo.start_url [])
     = VBool false
  /\ fst (execute_solution_plan (Demo.replying "boolean" "It depends")
            (Demo.shaped_plan "boolean") Demo.start_url [])
     = VBool false
  /\ fst (execute_solution_plan (Demo.replying "boolean" " TRUE, but not certain ")
            (Demo.shaped_plan "boolean") Demo.start_url [])
     = VBool true
  /\ fst (execute_solution_plan (Demo.replying "boolean" "Nope")
            (Demo.shaped_plan "boolean") Demo.start_url [])
     = VBool false.
Proof.
  refine (conj _ (conj _ (conj _ (conj _ _)))).
  - apply (proj1 (proj2 (boolean_coercion
                    (Demo.replying "boolean" "Yes, that is correct")
                    (Demo.shaped_plan "boolean") Demo.start_url [] []))).
    apply replying_input.
  - apply (proj1 (proj2 (proj2 (boolean_coercion
                    (Demo.replying "boolean" "No")
                    (Demo.shaped_plan "boolean") Demo.start_url [] [])))).
    apply replying_input.
  - apply (proj2 (proj2 (proj2 (boolean_coercion
                    (Demo.replying "boolean" "It depends")
                    (Demo.shaped_plan "boolean") Demo.start_url [] [])))).
    apply replying_input.
  - apply (proj1 (boolean_coercion
                    (Demo.replying "boolean" " TRUE, but not certain ")
                    (Demo.shaped_plan "boolean") Demo.start_url [] [])
             " TRUE, but not certain ");
      [apply replying_input|reflexivity].
  - apply (proj1 (boolean_coercion (Demo.replying "boolean" "Nope")
                    (Demo.shaped_plan "boolean") Demo.start_url [] [])
             "Nope");
      [apply replying_input|reflexivity|reflexivity].
Defined.


Lemma first_usable_datum_witness :
  prepare_chart_data Demo.quiet
    [pdf_record "report" [];
     json_record Demo.small_object;
     csv_record Demo.small_table VNone]
    "a bar chart"
  = Some (Dict Demo.small_object)
  /\ nonempty_frame Demo.quiet Demo.small_table
     = Ret (Some (Frame Demo.small_table)).
Proof.
  split.
  - apply (proj1 (first_usable_datum Demo.quiet) [pdf_record "report" []]
             (json_record Demo.small_object)
             [csv_record Demo.small_table VNone]
             (Dict Demo.small_object) "a bar chart").
    + intros earlier [<- | []]. reflexivity.
    + reflexivity.
  - apply (proj1 (proj2 (first_usable_datum Demo.quiet)) Demo.small_table 2%nat).
    reflexivity.
Defined.

(** Counterexample to C9 as stated, a json datum before a csv datum: both
    yield data, and the json dictionary is selected although the csv
    frame is tabular. *)
Lemma json_before_csv_selected :
  chart_item Demo.quiet (json_record Demo.small_object)
  = Ret (Some (Dict Demo.small_object))
  /\ chart_item Demo.quiet (csv_record Demo.small_table VNone)
     = Ret (Some (Frame Demo.small_table))
  /\ prepare_chart_data Demo.quiet
       [json_record Demo.small_object; csv_record Demo.small_table VNone]
       "a bar chart"
     = Some (Dict Demo.small_object)
  /\ prepare_chart_data Demo.quiet
       [csv_record Demo.small_table VNone; json_record Demo.small_object]
       "a bar chart"
     = Some (Frame Demo.small_table).
Proof. repeat split. Qed.

End AnswerResolver.

(** ** Chain controller *)

Module ChainController.
Import PyStr Solver.
Local Open Scope list_scope.
Local Open Scope nat_scope.

Section Chain.

Variable env : Env.

(** A graded step returns what the grading response says: the next URL
    when it is truthy, and something falsy otherwise, whatever the value
    of [correct]. *)
Lemma solve_single_quiz_graded quiz_url tr kvs tr' :
  graded env quiz_url tr (VDict kvs) tr' ->
  exists result,
    solve_single_quiz env quiz_url tr = (Ret result, tr')
    /\ (value_truthy (next_url (VDict kvs)) = true ->
        result = next_url (VDict kvs))
    /\ (value_truthy (next_url (VDict kvs)) = false ->
        value_truthy result = false).
Proof.
  intros (content & tr1 & sol & tr2 & Hfetch & Hcontent & Hsolve & Hurl & Hsubmit).
  unfold solve_single_quiz.
  rewrite Hfetch, Hcontent, Hsolve, Hurl, Hsubmit.
  destruct kvs as [|kv kvs]; [now exists VNone|].
  unfold next_url, get. cbn [value_truthy].
  set (url := match dict_lookup "url" (kv :: kvs) with
              | Some v => v
              | None => VNone
              end).
  destruct (value_truthy match dict_lookup "correct" (kv :: kvs) with
                         | Some v => v
                         | None => VNone
                         end);
    [|destruct (value_truthy url) eqn:Hu];
    eexists; (split; [reflexivity|]); split; auto; congruence.
Qed.

Section Turn.

Variable start_time : Q.

(** The turn of a state that passes the loop condition and the time
    check is its step. *)
Lemma chain_step_runs st :
  value_truthy (current_url st) = true ->
  quiz_count st < max_quizzes ->
  in_time env start_time (events st) = true ->
  chain_step env start_time st
  = let (result, tr2) :=
      solve_single_quiz env (current_url st) (events st ++ [EvTime]) in
    match result with
    | Ret next =>
        if value_truthy next
        then Running {| current_url := next; quiz_count := S (quiz_count st);
                        events := tr2 |}
        else Stopped Completed
               {| current_url := current_url st;
                  quiz_count := S (quiz_count st); events := tr2 |}
    | Raise =>
        Stopped StepFailed
          {| current_url := current_url st; quiz_count := S (quiz_count st);
             events := tr2 |}
    end.
Proof.
  intros Hurl Hcount Htime. unfold chain_step, in_time in *.
  apply Nat.ltb_lt in Hcount. now rewrite Hurl, Hcount, Htime.
Qed.

(** The turn of a state whose time check fails stops at once. *)
Lemma chain_step_late st :
  value_truthy (current_url st) = true ->
  quiz_count st < max_quizzes ->
  in_time env start_time (events st) = false ->
  chain_step env start_time st
  = Stopped TimeLimitReached
      {| current_url := current_url st; quiz_count := quiz_count st;
         events := events st ++ [EvTime] |}.
Proof.
  intros Hurl Hcount Htime. unfold chain_step, in_time in *.
  apply Nat.ltb_lt in Hcount. now rewrite Hurl, Hcount, Htime.
Qed.

(** A turn that continues has counted one more step, below the maximum,
    and carries a truthy URL. *)
Lemma chain_step_running st st' :
  chain_step env start_time st = Running st' ->
  quiz_count st' = S (quiz_count st)
  /\ quiz_count st' <= max_quizzes
  /\ value_truthy (current_url st') = true.
Proof.
  unfold chain_step.
  destruct (value_truthy (current_url st)); [|discriminate].
  destruct (Nat.ltb_spec (quiz_count st) max_quizzes) as [Hlt|]; [|discriminate].
  cbn [andb]. destruct (negb _); [discriminate|].
  destruct (solve_single_quiz env (current_url st) (events st ++ [EvTime]))
    as [[next|] tr2]; [|discriminate].
  destruct (value_truthy next) eqn:Hnext; [|discriminate].
  intros [= <-]. cbn. repeat split; auto.
Qed.

(** A turn that stops has counted at most one more step, and stays
    within the maximum. *)
Lemma chain_step_stopped st reason st' :
  chain_step env start_time st = Stopped reason st' ->
  quiz_count st <= quiz_count st'
  /\ (quiz_count st <= max_quizzes -> quiz_count st' <= max_quizzes).
Proof.
  unfold chain_step.
  destruct (value_truthy (current_url st));
    [|cbn [andb]; intros [= _ <-]; auto].
  destruct (Nat.ltb_spec (quiz_count st) max_quizzes) as [Hlt|];
    [|cbn [andb]; intros [= _ <-]; auto].
  cbn [andb]. destruct (negb _); [intros [= _ <-]; cbn; auto|].
  destruct (solve_single_quiz env (current_url st) (events st ++ [EvTime]))
    as [[next|] tr2]; [destruct (value_truthy next)|];
    intros [= _ <-]; cbn; split; auto.
Qed.

(** The loop stops before its fuel runs out. *)
Lemma chain_loop_total fuel st :
  max_quizzes - quiz_count st < fuel ->
  exists reason st', chain_loop env fuel start_time st = Some (reason, st').
Proof.
  revert st. induction fuel as [|fuel IH]; intros st Hfuel; [lia|].
  cbn [chain_loop].
  destruct (chain_step env start_time st) as [st1|reason st1] eqn:Hstep;
    [|eauto].
  destruct (chain_step_running _ _ Hstep) as (Hcount & Hmax & _).
  apply IH. lia.
Qed.

(** The counter never decreases on the way to the final state, and the
    final state is within the maximum. *)
Lemma chain_loop_count fuel st reason st' :
  chain_loop env fuel start_time st = Some (reason, st') ->
  quiz_count st <= quiz_count st'
  /\ (quiz_count st <= max_quizzes -> quiz_count st' <= max_quizzes).
Proof.
  revert st. induction fuel as [|fuel IH]; intros st; [discriminate|].
  cbn [chain_loop].
  destruct (chain_step env start_time st) as [st1|reason1 st1] eqn:Hstep.
  - intros Hloop. destruct (chain_step_running _ _ Hstep) as (Hcount & Hmax & _).
    destruct (IH _ Hloop) as [Hle Hbound]. split; [lia|auto].
  - intros [= _ <-]. exact (chain_step_stopped _ _ _ Hstep).
Qed.

(** From a state the loop visits, the rest of the run is the run from
    that state. *)
Lemma loop_heads_resume fuel st head :
  In head (loop_heads env fuel start_time st) ->
  exists fuel',
    chain_loop env fuel start_time st = chain_loop env (S fuel') start_time head.
Proof.
  revert st. induction fuel as [|fuel IH]; intros st; [contradiction|].
  cbn [loop_heads]. intros [<- | Hin]; [now exists fuel|].
  cbn [chain_loop].
  destruct (chain_step env start_time st) as [st1|]; [|contradiction].
  now apply IH.
Qed.

Lemma loop_heads_count fuel st head :
  In head (loop_heads env fuel start_time st) ->
  quiz_count st <= quiz_count head.
Proof.
  revert st. induction fuel as [|fuel IH]; intros st; [contradiction|].
  cbn [loop_heads]. intros [<- | Hin]; [lia|].
  destruct (chain_step env start_time st) as [st1|] eqn:Hstep; [|contradiction].
  destruct (chain_step_running _ _ Hstep) as (Hcount & _).
  specialize (IH _ Hin). lia.
Qed.

Lemma loop_heads_sorted fuel st :
  StronglySorted (fun a b => quiz_count a <= quiz_count b)
    (loop_heads env fuel start_time st).
Proof.
  revert st. induction fuel as [|fuel IH]; intros st; [constructor|].
  cbn [loop_heads].
  destruct (chain_step env start_time st) as [st1|] eqn:Hstep;
    constructor; auto; try constructor.
  apply Forall_forall. intros head Hin.
  destruct (chain_step_running _ _ Hstep) as (Hcount & _).
  apply loop_heads_count in Hin. lia.
Qed.

(** The turn of a graded step follows the grading response. *)
Lemma chain_step_graded st kvs tr' :
  value_truthy (current_url st) = true ->
  quiz_count st < max_quizzes ->
  in_time env start_time (events st) = true ->
  graded env (current_url st) (events st ++ [EvTime]) (VDict kvs) tr' ->
  (value_truthy (next_url (VDict kvs)) = true ->
   chain_step env start_time st
   = Running {| current_url := next_url (VDict kvs);
                quiz_count := S (quiz_count st); events := tr' |})
  /\ (value_truthy (next_url (VDict kvs)) = false ->
      chain_step env start_time st
      = Stopped Completed
          {| current_url := current_url st;
             quiz_count := S (quiz_count st); events := tr' |}).
Proof.
  intros Hurl Hcount Htime Hgraded.
  rewrite chain_step_runs by assumption.
  destruct (solve_single_quiz_graded _ _ _ _ Hgraded)
    as (result & -> & Hnext & Hnone).
  split; intros H.
  - now rewrite (Hnext H), H.
  - now rewrite (Hnone H).
Qed.

(** When every turn of the run passes the time check and is graded with
    a next URL, the loop goes on until the counter is at the maximum. *)
Lemma chain_loop_to_limit remaining st :
  (forall head,
      In head (loop_heads env (S remaining) start_time st) ->
      quiz_count head < max_quizzes ->
      in_time env start_time (events head) = true
      /\ graded_with_next env head) ->
  value_truthy (current_url st) = true ->
  quiz_count st + remaining = max_quizzes ->
  exists st',
    chain_loop env (S remaining) start_time st = Some (StepLimitReached, st')
    /\ quiz_count st' = max_quizzes.
Proof.
  revert st.
  induction remaining as [|remaining IH]; intros st Hheads Hurl Hcount.
  - exists st. split; [|lia]. cbn [chain_loop]. unfold chain_step.
    rewrite Hurl. destruct (Nat.ltb_spec (quiz_count st) max_quizzes); [lia|].
    reflexivity.
  - assert (Hlt : quiz_count st < max_quizzes) by lia.
    destruct (Hheads st (or_introl eq_refl) Hlt)
      as (Htime & kvs & tr' & Hgraded & Hnext).
    destruct (chain_step_graded st kvs tr' Hurl Hlt Htime Hgraded)
      as [Hstep _].
    specialize (Hstep Hnext).
    cbn [chain_loop]. rewrite Hstep. apply IH; cbn; [|assumption|lia].
    intros head Hin. apply Hheads.
    change (loop_heads env (S (S remaining)) start_time st)
      with (st :: match chain_step env start_time st with
                  | Running st1 => loop_heads env (S remaining) start_time st1
                  | Stopped _ _ => []
                  end).
    rewrite Hstep. now right.
Qed.

(** A grader that always names a next URL does so in every run. *)
Lemma always_next_url_heads st :
  always_next_url env ->
  value_truthy (current_url st) = true ->
  graded_with_next env st.
Proof. intros Hnext Hurl. exact (Hnext _ _ Hurl). Qed.

Lemma loop_heads_truthy fuel st head :
  value_truthy (current_url st) = true ->
  In head (loop_heads env fuel start_time st) ->
  value_truthy (current_url head) = true.
Proof.
  revert st. induction fuel as [|fuel IH]; intros st Hurl; [contradiction|].
  cbn [loop_heads]. intros [<- | Hin]; [assumption|].
  destruct (chain_step env start_time st) as [st1|] eqn:Hstep; [|contradiction].
  destruct (chain_step_running _ _ Hstep) as (_ & _ & Hurl1). eauto.
Qed.

End Turn.

Lemma service_calls_time tr :
  service_calls (tr ++ [EvTime]) = service_calls tr.
Proof.
  unfold service_calls. rewrite filter_app. cbn. apply app_nil_r.
Qed.

(** C1, amended: a chain started at a non-empty URL, each of whose
    turns passes the time check and is graded with a next URL, runs
    exactly 20 steps and stops at the step limit.  In every run the loop
    stops, the counter never decreases from one turn to the next nor to
    the final state, and it ends at 20 or less. *)
Theorem step_limit initial_url :
  (value_truthy initial_url = true ->
   (forall st,
       In st (loop_heads env (S max_quizzes) (time_time env [])
                (initial_state initial_url)) ->
       quiz_count st < max_quizzes ->
       in_time env (time_time env []) (events st) = true
       /\ graded_with_next env st) ->
   exists st,
     solve_quiz_chain env initial_url = Some (StepLimitReached, st)
     /\ quiz_count st = 20)
  /\ (exists reason st,
        solve_quiz_chain env initial_url = Some (reason, st)
        /\ quiz_count st <= 20
        /\ Forall (fun head => quiz_count head <= quiz_count st)
             (loop_heads env (S max_quizzes) (time_time env [])
                (initial_state initial_url)))
  /\ StronglySorted (fun a b => quiz_count a <= quiz_count b)
       (loop_heads env (S max_quizzes) (time_time env [])
          (initial_state initial_url)).
Proof.
  refine (conj _ (conj _ _)).
  - intros Hurl Hturns.
    apply (chain_loop_to_limit _ max_quizzes (initial_state initial_url));
      auto.
  - destruct (chain_loop_total (time_time env []) (S max_quizzes)
                (initial_state initial_url)) as (reason & st & Hrun);
      [unfold max_quizzes; cbn; lia|].
    exists reason, st. unfold solve_quiz_chain. split; [assumption|].
    split.
    + apply chain_loop_count in Hrun as [_ Hbound]. apply Hbound. cbn.
      unfold max_quizzes. lia.
    + apply Forall_forall. intros head Hin.
      destruct (loop_heads_resume _ _ _ _ Hin) as [fuel' Hresume].
      rewrite Hresume in Hrun. now apply chain_loop_count in Hrun as [Hle _].
  - apply loop_heads_sorted.
Qed.

(** C2: when the time check at the head of a turn of a session finds the
    ceiling passed, the session stops there with the time limit as the
    reason: the final trace is the trace of that moment and the reading
    of the clock, so no fetch, model call, download or submission
    follows, and no step is counted. *)
Theorem time_limit_stops initial_url st :
  In st (loop_heads env (S max_quizzes) (time_time env [])
           (initial_state initial_url)) ->
  value_truthy (current_url st) = true ->
  quiz_count st < max_quizzes ->
  in_time env (time_time env []) (events st) = false ->
  exists st',
    solve_quiz_chain env initial_url = Some (TimeLimitReached, st')
    /\ events st' = events st ++ [EvTime]
    /\ service_calls (events st') = service_calls (events st)
    /\ quiz_count st' = quiz_count st.
Proof.
  intros Hin Hurl Hcount Hlate.
  destruct (loop_heads_resume _ _ _ _ Hin) as [fuel' Hresume].
  unfold solve_quiz_chain. rewrite Hresume. cbn [chain_loop].
  rewrite chain_step_late by assumption.
  eexists. split; [reflexivity|]. cbn.
  repeat split. apply service_calls_time.
Qed.

(** C7: in a turn that passes the loop condition and the time check and
    whose submission is answered by a grading dictionary, the value of
    [correct] plays no part.  When the response names a next URL, the
    turn ends running and the rest of the run is the run from the state
    whose current URL is that next URL; when it names none, the run stops
    there as completed.  So a session whose first grading response has
    no next URL stops as completed after one step, and a session whose
    first response names a next URL and whose second names none takes its
    second step on that URL and stops as completed after two steps. *)
Theorem grading_decides :
  (forall start_time st kvs tr',
      value_truthy (current_url st) = true ->
      quiz_count st < max_quizzes ->
      in_time env start_time (events st) = true ->
      graded env (current_url st) (events st ++ [EvTime]) (VDict kvs) tr' ->
      (value_truthy (next_url (VDict kvs)) = true ->
       chain_step env start_time st
       = Running {| current_url := next_url (VDict kvs);
                    quiz_count := S (quiz_count st); events := tr' |}
       /\ forall fuel,
            chain_loop env (S fuel) start_time st
            = chain_loop env fuel start_time
                {| current_url := next_url (VDict kvs);
                   quiz_count := S (quiz_count st); events := tr' |})
      /\ (value_truthy (next_url (VDict kvs)) = false ->
          chain_step env start_time st
          = Stopped Completed
              {| current_url := current_url st;
                 quiz_count := S (quiz_count st); events := tr' |}
          /\ forall fuel,
               chain_loop env (S fuel) start_time st
               = Some (Completed,
                       {| current_url := current_url st;
                          quiz_count := S (quiz_count st); events := tr' |})))
  /\ (forall initial_url kvs tr',
         value_truthy initial_url = true ->
         in_time env (time_time env []) [EvTime] = true ->
         graded env initial_url [EvTime; EvTime] (VDict kvs) tr' ->
         value_truthy (next_url (VDict kvs)) = false ->
         solve_quiz_chain env initial_url
         = Some (Completed,
                 {| current_url := initial_url; quiz_count := 1;
                    events := tr' |}))
  /\ (forall initial_url kvs1 tr1 kvs2 tr2,
         value_truthy initial_url = true ->
         in_time env (time_time env []) [EvTime] = true ->
         graded env initial_url [EvTime; EvTime] (VDict kvs1) tr1 ->
         value_truthy (next_url (VDict kvs1)) = true ->
         in_time env (time_time env []) tr1 = true ->
         graded env (next_url (VDict kvs1)) (tr1 ++ [EvTime]) (VDict kvs2) tr2 ->
         value_truthy (next_url (VDict kvs2)) = false ->
         solve_quiz_chain env initial_url
         = Some (Completed,
                 {| current_url := next_url (VDict kvs1); quiz_count := 2;
                    events := tr2 |})).
Proof.
  assert (Hturn : forall start_time st kvs tr',
             value_truthy (current_url st) = true ->
             quiz_count st < max_quizzes ->
             in_time env start_time (events st) = true ->
             graded env (current_url st) (events st ++ [EvTime]) (VDict kvs) tr' ->
             (value_truthy (next_url (VDict kvs)) = true ->
              chain_step env start_time st
              = Running {| current_url := next_url (VDict kvs);
                           quiz_count := S (quiz_count st); events := tr' |}
              /\ forall fuel,
                   chain_loop env (S fuel) start_time st
                   = chain_loop env fuel start_time
                       {| current_url := next_url (VDict kvs);
                          quiz_count := S (quiz_count st); events := tr' |})
             /\ (value_truthy (next_url (VDict kvs)) = false ->
                 chain_step env start_time st
                 = Stopped Completed
                     {| current_url := current_url st;
                        quiz_count := S (quiz_count st); events := tr' |}
                 /\ forall fuel,
                      chain_loop env (S fuel) start_time st
                      = Some (Completed,
                              {| current_url := current_url st;
                                 quiz_count := S (quiz_count st);
                                 events := tr' |}))).
  { intros start_time st kvs tr' Hurl Hcount Htime Hgraded.
    destruct (chain_step_graded start_time st kvs tr' Hurl Hcount Htime Hgraded)
      as [Hnext Hnone].
    split; intros H; (split; [auto|]); intros fuel; cbn [chain_loop].
    - now rewrite (Hnext H).
    - now rewrite (Hnone H). }
  assert (Hfirst : quiz_count (initial_state VNone) < max_quizzes)
    by (cbn; unfold max_quizzes; lia).
  refine (conj Hturn (conj _ _)).
  - intros initial_url kvs tr' Hurl Htime Hgraded Hnone.
    unfold solve_quiz_chain.
    destruct (Hturn (time_time env []) (initial_state initial_url) kvs tr')
      as [_ Hstop]; auto.
    now destruct (Hstop Hnone) as [_ ->].
  - intros initial_url kvs1 tr1 kvs2 tr2 Hurl Htime Hgraded1 Hnext1 Htime1
      Hgraded2 Hnone2.
    unfold solve_quiz_chain.
    destruct (Hturn (time_time env []) (initial_state initial_url) kvs1 tr1)
      as [Hgo _]; auto.
    destruct (Hgo Hnext1) as [_ ->].
    destruct (Hturn (time_time env [])
                {| current_url := next_url (VDict kvs1); quiz_count := 1;
                   events := tr1 |} kvs2 tr2) as [_ Hstop]; auto.
    + cbn. unfold max_quizzes. lia.
    + destruct (Hstop Hnone2) as [_ Hloop].
      exact (Hloop (pred max_quizzes)).
Qed.

End Chain.

(** In the scripted chains every step is graded with the scripted
    response. *)
Lemma scripted_graded clock reply grading quiz_url tr :
  truthy reply = true ->
  exists tr',
    graded (Demo.scripted clock Demo.demo_plan reply grading) quiz_url tr
      grading tr'.
Proof.
  intros Hreply. destruct reply as [|c reply]; [discriminate|].
  eexists. unfold graded. do 4 eexists.
  split; [reflexivity|]. split; [reflexivity|].
  split; [reflexivity|]. split; reflexivity.
Qed.

Lemma endless_always_next clock : always_next_url (Demo.endless clock).
Proof.
  intros quiz_url tr _.
  destruct (scripted_graded clock "7" Demo.grading_with_next quiz_url tr eq_refl)
    as [tr' H].
  now exists [("correct", VBool false); ("reason", VStr "wrong");
              ("url", VStr "https://quiz.example/next")], tr'.
Qed.

Lemma step_limit_witness :
  exists st,
    solve_quiz_chain (Demo.endless Demo.frozen_clock) Demo.start_url
    = Some (StepLimitReached, st)
    /\ quiz_count st = 20.
Proof.
  apply (step_limit (Demo.endless Demo.frozen_clock) Demo.start_url).
  - reflexivity.
  - intros st Hin _. split; [reflexivity|].
    apply always_next_url_heads; [apply endless_always_next|].
    exact (loop_heads_truthy _ _ _ (initial_state Demo.start_url) _
             eq_refl Hin).
Defined.

(** Counterexample to C1 as stated, a slow chain: every step is graded
    with a next URL, every call takes ten seconds, and the fifth time
    check stops the chain after four steps. *)
Lemma slow_chain_stops_early :
  value_truthy Demo.start_url = true
  /\ always_next_url (Demo.endless Demo.slow_clock)
  /\ option_map (fun r => (fst r, quiz_count (snd r)))
       (solve_quiz_chain (Demo.endless Demo.slow_clock) Demo.start_url)
     = Some (TimeLimitReached, 4).
Proof.
  split; [reflexivity|]. split; [apply endless_always_next|].
  vm_compute. reflexivity.
Qed.

Lemma grading_decides_witness :
  (exists tr',
      chain_step (Demo.endless Demo.frozen_clock) 0%Q
        (initial_state Demo.start_url)
      = Running {| current_url := VStr "https://quiz.example/next";
                   quiz_count := 1; events := tr' |}
      /\ forall fuel,
           chain_loop (Demo.endless Demo.frozen_clock) (S fuel) 0%Q
             (initial_state Demo.start_url)
           = chain_loop (Demo.endless Demo.frozen_clock) fuel 0%Q
               {| current_url := VStr "https://quiz.example/next";
                  quiz_count := 1; events := tr' |})
  /\ (exists tr',
         solve_quiz_chain
           (Demo.scripted Demo.frozen_clock Demo.demo_plan "7"
              Demo.grading_without_next)
           Demo.start_url
         = Some (Completed,
                 {| current_url := Demo.start_url; quiz_count := 1;
                    events := tr' |}))
  /\ solve_quiz_chain Scenarios.two_quizzes Demo.start_url
     = Some (Completed,
             {| current_url := VStr "https://quiz.example/next";
                quiz_count := 2;
                events :=
                  [EvTime; EvTime; EvBrowser Demo.start_url; EvPlanChat;
                   EvAnswerChat;
                   EvSubmit (VStr "https://quiz.example/submit")
                     Demo.start_url (VStr "7");
                   EvTime; EvBrowser (VStr "https://quiz.example/next");
                   EvPlanChat; EvAnswerChat;
                   EvSubmit (VStr "https://quiz.example/submit")
                     (VStr "https://quiz.example/next") (VStr "7")] |}).
Proof.
  refine (conj _ (conj _ _)).
  - destruct (scripted_graded Demo.frozen_clock "7" Demo.grading_with_next
                Demo.start_url [EvTime; EvTime] eq_refl) as [tr' Hgraded].
    exists tr'.
    refine (proj1 (proj1 (grading_decides (Demo.endless Demo.frozen_clock))
                     0%Q (initial_state Demo.start_url) _ tr'
                     eq_refl _ eq_refl Hgraded) eq_refl).
    unfold max_quizzes. cbn. lia.
  - destruct (scripted_graded Demo.frozen_clock "7" Demo.grading_without_next
                Demo.start_url [EvTime; EvTime] eq_refl) as [tr' Hgraded].
    exists tr'.
    exact (proj1 (proj2 (grading_decides
                    (Demo.scripted Demo.frozen_clock Demo.demo_plan "7"
                       Demo.grading_without_next)))
             Demo.start_url [("correct", VBool true)] tr'
             eq_refl eq_refl Hgraded eq_refl).
  - refine (proj2 (proj2 (grading_decides Scenarios.two_quizzes))
              Demo.start_url
              [("correct", VBool false); ("reason", VStr "wrong");
               ("url", VStr "https://quiz.example/next")]
              [EvTime; EvTime; EvBrowser Demo.start_url; EvPlanChat;
               EvAnswerChat;
               EvSubmit (VStr "https://quiz.example/submit")
                 Demo.start_url (VStr "7")]
              [("correct", VBool true)] _
              eq_refl eq_refl _ eq_refl eq_refl _ eq_refl).
    + exists Demo.quiz_page, [EvTime; EvTime; EvBrowser Demo.start_url].
      do 2 eexists. split; [reflexivity|]. split; [reflexivity|].
      split; [reflexivity|]. split; reflexivity.
    + exists Demo.quiz_page. do 3 eexists.
      split; [reflexivity|]. split; [reflexivity|].
      split; [reflexivity|]. split; reflexivity.
Defined.

Lemma time_limit_stops_witness :
  exists st',
    solve_quiz_chain (Demo.endless Demo.slow_clock) Demo.start_url
    = Some (TimeLimitReached, st')
    /\ events st' = events Demo.late_state ++ [EvTime]
    /\ service_calls (events st') = service_calls (events Demo.late_state)
    /\ quiz_count st' = quiz_count Demo.late_state.
Proof.
  apply (time_limit_stops (Demo.endless Demo.slow_clock) Demo.start_url
           Demo.late_state).
  - vm_compute. do 4 right. left. reflexivity.
  - reflexivity.
  - vm_compute. lia.
  - reflexivity.
Defined.

End ChainController.

(** ** Steps: what a failure inside a step does to the chain *)

Module StepFacts.
Import PyStr Solver Calls Steps.
Local Open Scope list_scope.
Local Open Scope nat_scope.

Lemma count_app p (a b : trace) : count p (a ++ b) = count p a + count p b.
Proof. unfold count. now rewrite filter_app, length_app. Qed.

Lemma grows_refl tr : grows tr tr 0 0 0.
Proof. exists []. rewrite app_nil_r. repeat split; auto. Qed.

Lemma grows_trans tr1 tr2 tr3 b s c b' s' c' :
  grows tr1 tr2 b s c -> grows tr2 tr3 b' s' c' ->
  grows tr1 tr3 (b + b') (s + s') (c + c').
Proof.
  intros (x & -> & Hb & Hs & Hc) (y & -> & Hb' & Hs' & Hc').
  exists (x ++ y). rewrite app_assoc, !count_app. repeat split; lia.
Qed.

Lemma grows_weaken tr tr' b s c s' c' :
  grows tr tr' b s c -> s <= s' -> c <= c' -> grows tr tr' b s' c'.
Proof.
  intros (x & -> & Hb & Hs & Hc) Hs' Hc'. exists x. repeat split; auto; lia.
Qed.

Section Step.

Variable env : Env.

Lemma fetch_quiz_page_trace url tr :
  snd (fetch_quiz_page env url tr) = tr ++ [EvBrowser url]
  \/ snd (fetch_quiz_page env url tr) = tr ++ [EvBrowser url; EvHttpGet url].
Proof.
  unfold fetch_quiz_page. destruct (page_content env tr url); [now left|].
  right. rewrite <- app_assoc.
  destruct (requests_get env (tr ++ [EvBrowser url]) url) as [[status txt]|];
    [destruct (status =? 200)%Z|]; reflexivity.
Qed.

Lemma download_all_trace sources tr :
  snd (download_all env sources tr) = tr ++ map EvDownload sources.
Proof.
  revert tr. induction sources as [|source rest IH]; intros tr; cbn.
  - now rewrite app_nil_r.
  - specialize (IH (tr ++ [EvDownload source])).
    destruct (download_all env rest (tr ++ [EvDownload source])) as [more tr'].
    cbn in *. now rewrite IH, <- app_assoc.
Qed.

Lemma count_downloads p sources :
  (forall source, p (EvDownload source) = false) ->
  count p (map EvDownload sources) = 0.
Proof.
  intros Hp. unfold count. induction sources as [|x rest IH]; cbn; [reflexivity|].
  now rewrite Hp.
Qed.

Lemma execute_solution_plan_grows plan quiz_url tr :
  grows tr (snd (execute_solution_plan env plan quiz_url tr)) 0 0 1.
Proof.
  unfold execute_solution_plan.
  destruct (get plan "data_sources" (VList []));
    [|apply grows_weaken with 0 0; auto using grows_refl].
  destruct (get plan "answer_format" (VStr "string"));
    [|apply grows_weaken with 0 0; auto using grows_refl].
  destruct (py_iter a) as [sources|];
    [|apply grows_weaken with 0 0; auto using grows_refl].
  pose proof (download_all_trace sources tr) as Htr.
  destruct (download_all env sources tr) as [downloaded tr1]. cbn in Htr.
  assert (Hg : grows tr (tr1 ++ [EvAnswerChat]) 0 0 1).
  { exists (map EvDownload sources ++ [EvAnswerChat]).
    rewrite Htr, <- app_assoc, !count_app, !count_downloads by reflexivity.
    repeat split; auto. }
  destruct (chat_completion env tr1) as [[content|]|]; auto.
  destruct (truthy content); auto.
  now destruct (coerce_answer env plan a0 downloaded (strip content)
                  (tr1 ++ [EvAnswerChat])).
Qed.

Lemma analyze_and_solve_grows content quiz_url tr :
  grows tr (snd (analyze_and_solve env content quiz_url tr)) 0 0 2.
Proof.
  assert (Hchat : grows tr (tr ++ [EvPlanChat]) 0 0 2).
  { exists [EvPlanChat]. repeat split; auto. }
  unfold analyze_and_solve.
  destruct (chat_completion env tr) as [[analysis|]|]; auto.
  destruct (truthy analysis); auto.
  destruct (parse_plan env analysis) as [plan|]; auto.
  pose proof (execute_solution_plan_grows plan quiz_url (tr ++ [EvPlanChat]))
    as Hexec.
  destruct (execute_solution_plan env plan quiz_url (tr ++ [EvPlanChat]))
    as [ans tr2]. cbn in Hexec.
  assert (Hg : grows tr tr2 0 0 2).
  { apply (grows_trans tr (tr ++ [EvPlanChat]) tr2 0 0 1 0 0 1);
      [|exact Hexec].
    exists [EvPlanChat]. repeat split; auto. }
  destruct (get plan "submit_url" (VStr "")) as [u|]; auto.
  now destruct (repair_submit_url env quiz_url u).
Qed.

Lemma submit_answer_trace submit_url quiz_url answer tr :
  snd (submit_answer env submit_url quiz_url answer tr)
  = tr ++ [EvSubmit submit_url quiz_url answer].
Proof.
  unfold submit_answer.
  destruct (requests_post env tr submit_url quiz_url answer) as [[status body]|];
    [destruct (status =? 200)%Z; [destruct body|]|]; reflexivity.
Qed.

(** A step loads one page, submits at most once and calls the model at
    most twice. *)
Lemma solve_single_quiz_grows quiz_url tr :
  grows tr (snd (solve_single_quiz env quiz_url tr)) 1 1 2.
Proof.
  assert (Hfetch : grows tr (snd (fetch_quiz_page env quiz_url tr)) 1 0 0).
  { destruct (fetch_quiz_page_trace quiz_url tr) as [-> | ->];
      eexists; (split; [reflexivity|]); repeat split; auto. }
  unfold solve_single_quiz.
  destruct (fetch_quiz_page env quiz_url tr) as [quiz_content tr1].
  cbn [snd] in Hfetch.
  assert (Hnone : grows tr tr1 1 1 2)
    by (apply grows_weaken with 0 0; auto).
  destruct quiz_content; auto. destruct (truthy s); auto.
  pose proof (analyze_and_solve_grows s quiz_url tr1) as Hsolve.
  destruct (analyze_and_solve env s quiz_url tr1) as [solution tr2].
  cbn [snd] in Hsolve.
  assert (Hsolved : grows tr tr2 1 0 2)
    by exact (grows_trans _ _ _ 1 0 0 0 0 2 Hfetch Hsolve).
  destruct solution as [sol|]; [|apply grows_weaken with 0 2; auto].
  destruct (value_truthy (submit_url sol));
    [|apply grows_weaken with 0 2; auto].
  pose proof (submit_answer_trace (submit_url sol) quiz_url (answer sol) tr2)
    as Hsubmit.
  destruct (submit_answer env (submit_url sol) quiz_url (answer sol) tr2)
    as [response tr3].
  cbn [snd] in Hsubmit.
  assert (Hdone : grows tr tr3 1 1 2).
  { apply (grows_trans tr tr2 tr3 1 0 2 0 1 0 Hsolved).
    exists [EvSubmit (submit_url sol) quiz_url (answer sol)].
    repeat split; auto. }
  destruct (value_truthy response); auto.
  destruct (get response "correct" VNone) as [correct|]; auto.
  destruct (get response "url" VNone) as [url|]; auto.
  destruct (value_truthy correct); auto. now destruct (value_truthy url).
Qed.

(** X1: when a turn runs and the page cannot be fetched (the browser and
    the fallback GET both fail, or the page is empty), the step is
    counted, the chain stops as completed, and nothing but the fetch was
    called: no model call, no download, no submission. *)
Theorem failed_fetch_ends_chain start_time st :
  turn_runs env start_time st ->
  value_truthy (fst (fetch_quiz_page env (current_url st)
                       (events st ++ [EvTime]))) = false ->
  exists tr',
    chain_step env start_time st
    = Stopped Completed
        {| current_url := current_url st; quiz_count := S (quiz_count st);
           events := tr' |}
    /\ (tr' = events st ++ [EvTime] ++ [EvBrowser (current_url st)]
        \/ tr' = events st ++ [EvTime]
                 ++ [EvBrowser (current_url st); EvHttpGet (current_url st)]).
Proof.
  intros (Hurl & Hcount & Htime) Hfetch.
  rewrite ChainController.chain_step_runs by assumption.
  pose proof (fetch_quiz_page_trace (current_url st) (events st ++ [EvTime]))
    as Htrace.
  unfold solve_single_quiz.
  destruct (fetch_quiz_page env (current_url st) (events st ++ [EvTime]))
    as [quiz_content tr1].
  cbn [fst snd] in *. rewrite <- !app_assoc in Htrace.
  exists tr1. split; [|exact Htrace].
  destruct quiz_content; try reflexivity.
  cbn in Hfetch. now rewrite Hfetch.
Qed.

(** X2: when the model's text is no JSON and holds no pair of braces in
    order, the step still asks the model for an answer to the error plan
    and then returns without submitting: the plan has no submit URL. *)
Theorem unparsable_plan_not_submitted quiz_url tr content tr1 analysis :
  fetch_quiz_page env quiz_url tr = (VStr content, tr1) ->
  truthy content = true ->
  chat_completion env tr1 = Ret (Some analysis) ->
  truthy analysis = true ->
  json_loads env analysis = Raise ->
  (find analysis "{" = -1
   \/ rfind analysis "}" + 1 <= find analysis "{")%Z ->
  parse_plan env analysis = Ret error_plan
  /\ solve_single_quiz env quiz_url tr
     = (Ret VNone, (tr1 ++ [EvPlanChat]) ++ [EvAnswerChat]).
Proof.
  intros Hfetch Hcontent Hchat Hanalysis Hloads Hbraces.
  assert (Hplan : parse_plan env analysis = Ret error_plan).
  { unfold parse_plan. rewrite Hloads. destruct Hbraces as [H | H].
    - now rewrite H.
    - destruct (Z.gtb_spec (rfind analysis "}" + 1) (find analysis "{"));
        [lia|]. now rewrite andb_false_r. }
  split; [exact Hplan|].
  unfold solve_single_quiz, analyze_and_solve.
  rewrite Hfetch, Hcontent, Hchat, Hanalysis, Hplan.
  unfold execute_solution_plan, error_plan. cbn [get dict_lookup String.eqb
    Ascii.eqb Bool.eqb py_iter download_all].
  destruct (chat_completion env (tr1 ++ [EvPlanChat])) as [[reply|]|];
    [destruct (truthy reply);
     [destruct (coerce_answer _ _ _ _ _ _)|]| |]; reflexivity.
Qed.

(** X3: a resolver that fails does not stop the step: when the plan
    names an absolute submit URL, the answer [None] is submitted to it. *)
Theorem failed_answer_is_submitted quiz_url tr content tr1 analysis plan s tr2 :
  fetch_quiz_page env quiz_url tr = (VStr content, tr1) ->
  truthy content = true ->
  chat_completion env tr1 = Ret (Some analysis) ->
  truthy analysis = true ->
  parse_plan env analysis = Ret plan ->
  get plan "submit_url" (VStr "") = Ret (VStr s) ->
  truthy s = true ->
  startswith s "http" = true ->
  contains placeholder s = false ->
  execute_solution_plan env plan quiz_url (tr1 ++ [EvPlanChat]) = (VNone, tr2) ->
  reaches_submission env quiz_url tr
    {| submit_url := VStr s; answer := VNone |} tr2
  /\ snd (solve_single_quiz env quiz_url tr)
     = tr2 ++ [EvSubmit (VStr s) quiz_url VNone].
Proof.
  intros Hfetch Hcontent Hchat Hanalysis Hplan Hget Hs Hhttp Hph Hexec.
  assert (Hsolve : analyze_and_solve env content quiz_url tr1
                   = (Some {| submit_url := VStr s; answer := VNone |}, tr2)).
  { unfold analyze_and_solve.
    rewrite Hchat, Hanalysis, Hplan, Hexec, Hget.
    unfold repair_submit_url. now rewrite Hs, Hhttp, Hph. }
  split.
  - exists content, tr1. repeat split; auto.
  - unfold solve_single_quiz. rewrite Hfetch, Hcontent, Hsolve.
    cbn [submit_url answer value_truthy]. rewrite Hs.
    pose proof (submit_answer_trace (VStr s) quiz_url VNone tr2) as Htr.
    destruct (submit_answer env (VStr s) quiz_url VNone tr2) as [response tr3].
    cbn [snd] in Htr. subst tr3.
    destruct (value_truthy response); [|reflexivity].
    destruct (get response "correct" VNone) as [correct|]; [|reflexivity].
    destruct (get response "url" VNone) as [url|]; [|reflexivity].
    destruct (value_truthy correct); [reflexivity|].
    now destruct (value_truthy url).
Qed.

(** X4: a submission that raises, is answered with another status than
    200, or whose body is no JSON is not repeated: the turn has made its
    one submission and the chain stops as completed. *)
Theorem failed_submission_ends_chain start_time st sol tr2 :
  turn_runs env start_time st ->
  reaches_submission env (current_url st) (events st ++ [EvTime]) sol tr2 ->
  (requests_post env tr2 (submit_url sol) (current_url st) (answer sol) = Raise
   \/ exists status body,
        requests_post env tr2 (submit_url sol) (current_url st) (answer sol)
        = Ret (status, body)
        /\ (status <> 200%Z \/ body = Raise)) ->
  chain_step env start_time st
  = Stopped Completed
      {| current_url := current_url st; quiz_count := S (quiz_count st);
         events := tr2 ++ [EvSubmit (submit_url sol) (current_url st)
                             (answer sol)] |}.
Proof.
  intros (Hurl & Hcount & Htime) (content & tr1 & Hfetch & Hcontent & Hsolve & Hsub)
    Hpost.
  rewrite ChainController.chain_step_runs by assumption.
  unfold solve_single_quiz. rewrite Hfetch, Hcontent, Hsolve, Hsub.
  unfold submit_answer.
  destruct Hpost as [-> | (status & body & -> & [Hstatus | ->])];
    [reflexivity| |].
  - apply Z.eqb_neq in Hstatus. now rewrite Hstatus.
  - now destruct (status =? 200)%Z.
Qed.

(** X5: the only exception that leaves a step comes from a submission
    that was answered: the step got as far as the submission, and the body
    of the 200 response is truthy and not a JSON object. *)
Theorem step_failure_is_odd_body start_time st st' :
  chain_step env start_time st = Stopped StepFailed st' ->
  exists sol tr2 response,
    reaches_submission env (current_url st) (events st ++ [EvTime]) sol tr2
    /\ submit_answer env (submit_url sol) (current_url st) (answer sol) tr2
       = (response, events st')
    /\ value_truthy response = true
    /\ (forall kvs, response <> VDict kvs)
    /\ quiz_count st' = S (quiz_count st).
Proof.
  unfold chain_step.
  destruct (value_truthy (current_url st)); [|discriminate].
  destruct (quiz_count st <? max_quizzes); [|discriminate].
  cbn [andb]. destruct (negb _); [discriminate|].
  unfold solve_single_quiz.
  destruct (fetch_quiz_page env (current_url st) (events st ++ [EvTime]))
    as [quiz_content tr1] eqn:Hfetch.
  destruct quiz_content as [| | | |content| |];
    try (cbn; discriminate).
  destruct (truthy content) eqn:Hcontent; [|cbn; discriminate].
  destruct (analyze_and_solve env content (current_url st) tr1)
    as [[sol|] tr2] eqn:Hsolve; [|cbn; discriminate].
  destruct (value_truthy (submit_url sol)) eqn:Hsub; [|cbn; discriminate].
  destruct (submit_answer env (submit_url sol) (current_url st) (answer sol) tr2)
    as [response tr3] eqn:Hsubmit.
  destruct (value_truthy response) eqn:Hresponse; [|cbn; discriminate].
  destruct response as [| | | | | |kvs];
    try (cbn; intros [= <-]; exists sol, tr2; eexists;
         repeat split; eauto; [exists content, tr1; auto|discriminate]).
  unfold get.
  set (url := match dict_lookup "url" kvs with
              | Some v => v
              | None => VNone
              end).
  destruct (value_truthy match dict_lookup "correct" kvs with
                         | Some v => v
                         | None => VNone
                         end);
    destruct (value_truthy url) eqn:Hnext; cbn; rewrite ?Hnext;
    discriminate.
Qed.

End Step.

Lemma failed_fetch_ends_chain_witness :
  exists tr',
    chain_step Scenarios.offline 0%Q Scenarios.midway
    = Stopped Completed
        {| current_url := Demo.start_url; quiz_count := 4; events := tr' |}
    /\ (tr' = [EvTime; EvTime] ++ [EvTime] ++ [EvBrowser Demo.start_url]
        \/ tr' = [EvTime; EvTime] ++ [EvTime]
                 ++ [EvBrowser Demo.start_url; EvHttpGet Demo.start_url]).
Proof.
  apply (failed_fetch_ends_chain Scenarios.offline 0%Q Scenarios.midway).
  - repeat split. unfold max_quizzes. cbn. lia.
  - reflexivity.
Defined.

Lemma unparsable_plan_not_submitted_witness :
  parse_plan Scenarios.babbling "I cannot tell" = Ret error_plan
  /\ solve_single_quiz Scenarios.babbling Demo.start_url []
     = (Ret VNone,
        ([EvBrowser Demo.start_url] ++ [EvPlanChat]) ++ [EvAnswerChat]).
Proof.
  apply (unparsable_plan_not_submitted Scenarios.babbling Demo.start_url []
           Demo.quiz_page [EvBrowser Demo.start_url] "I cannot tell");
    try reflexivity.
  left. reflexivity.
Defined.

Lemma failed_answer_is_submitted_witness :
  reaches_submission Scenarios.silent_resolver Demo.start_url []
    {| submit_url := VStr "https://quiz.example/submit"; answer := VNone |}
    [EvBrowser Demo.start_url; EvPlanChat; EvAnswerChat]
  /\ snd (solve_single_quiz Scenarios.silent_resolver Demo.start_url [])
     = [EvBrowser Demo.start_url; EvPlanChat; EvAnswerChat]
       ++ [EvSubmit (VStr "https://quiz.example/submit") Demo.start_url VNone].
Proof.
  apply (failed_answer_is_submitted Scenarios.silent_resolver Demo.start_url []
           Demo.quiz_page [EvBrowser Demo.start_url] "{plan}" Demo.demo_plan
           "https://quiz.example/submit");
    reflexivity.
Defined.

Lemma failed_submission_ends_chain_witness :
  chain_step Scenarios.rejecting 0%Q Scenarios.midway
  = Stopped Completed
      {| current_url := Demo.start_url; quiz_count := 4;
         events := [EvTime; EvTime; EvTime; EvBrowser Demo.start_url;
                    EvPlanChat; EvAnswerChat]
                   ++ [EvSubmit (VStr "https://quiz.example/submit")
                         Demo.start_url (VStr "7")] |}.
Proof.
  apply (failed_submission_ends_chain Scenarios.rejecting 0%Q Scenarios.midway
           {| submit_url := VStr "https://quiz.example/submit";
              answer := VStr "7" |}).
  - repeat split. unfold max_quizzes. cbn. lia.
  - exists Demo.quiz_page, [EvTime; EvTime; EvTime; EvBrowser Demo.start_url].
    repeat split.
  - right. exists 500%Z, Raise. split; [reflexivity|]. right. reflexivity.
Defined.

Lemma step_failure_is_odd_body_witness :
  exists st',
    chain_step Scenarios.odd_grader 0%Q Scenarios.midway
    = Stopped StepFailed st'
    /\ exists sol tr2 response,
         reaches_submission Scenarios.odd_grader Demo.start_url
           ([EvTime; EvTime] ++ [EvTime]) sol tr2
         /\ submit_answer Scenarios.odd_grader (submit_url sol) Demo.start_url
              (answer sol) tr2
            = (response, events st')
         /\ value_truthy response = true
         /\ (forall kvs, response <> VDict kvs)
         /\ quiz_count st' = 4.
Proof.
  eexists. split; [reflexivity|].
  apply (step_failure_is_odd_body Scenarios.odd_grader 0%Q Scenarios.midway).
  reflexivity.
Defined.

End StepFacts.

(** ** Runs: what a whole chain calls *)

Module RunFacts.
Import PyStr Solver Calls Steps StepFacts.
Local Open Scope list_scope.
Local Open Scope nat_scope.

Section Run.

Variable env : Env.

(** X6: the data sources are tried one after the other, each exactly
    once and in the order of the plan, whether or not the earlier ones
    gave anything; what is kept is truthy, comes from one of the sources,
    and is no longer than the list of sources. *)
Theorem download_all_tries_every_source sources tr :
  snd (download_all env sources tr) = tr ++ map EvDownload sources
  /\ Forall (fun data =>
               value_truthy data = true
               /\ exists source tr',
                    In source sources
                    /\ data = fetch_and_process env tr' source)
       (fst (download_all env sources tr))
  /\ List.length (fst (download_all env sources tr)) <= List.length sources.
Proof.
  split; [apply download_all_trace|].
  revert tr. induction sources as [|source rest IH]; intros tr; cbn.
  - split; [constructor|lia].
  - destruct (IH (tr ++ [EvDownload source])) as [Hall Hlen].
    destruct (download_all env rest (tr ++ [EvDownload source])) as [more tr'].
    cbn [fst] in *.
    assert (Hmore : Forall (fun data =>
                              value_truthy data = true
                              /\ exists source0 tr0,
                                   (source = source0 \/ In source0 rest)
                                   /\ data = fetch_and_process env tr0 source0)
                      more).
    { eapply Forall_impl; [|exact Hall].
      intros data (Ht & src & tr0 & Hin & Heq). split; [assumption|].
      exists src, tr0. auto. }
    destruct (value_truthy (fetch_and_process env tr source)) eqn:Hdata.
    + split; [|cbn; lia]. constructor; [|assumption].
      split; [assumption|]. exists source, tr. auto.
    + split; [assumption|lia].
Qed.

Section Turn.

Variable start_time : Q.

Lemma chain_step_calls st :
  match chain_step env start_time st with
  | Running st1 | Stopped _ st1 =>
      quiz_count st <= quiz_count st1
      /\ grows (events st) (events st1)
           (quiz_count st1 - quiz_count st) (quiz_count st1 - quiz_count st)
           (2 * (quiz_count st1 - quiz_count st))
  end.
Proof.
  assert (Hstay : forall tr, grows tr tr (quiz_count st - quiz_count st)
                               (quiz_count st - quiz_count st)
                               (2 * (quiz_count st - quiz_count st))).
  { intros tr. rewrite Nat.sub_diag. apply grows_refl. }
  assert (Htick : grows (events st) (events st ++ [EvTime]) 0 0 0).
  { exists [EvTime]. repeat split; auto. }
  unfold chain_step.
  destruct (value_truthy (current_url st) && (quiz_count st <? max_quizzes));
    [|split; [lia|apply Hstay]].
  destruct (negb _).
  { cbn [quiz_count events]. split; [lia|]. rewrite Nat.sub_diag. exact Htick. }
  pose proof (solve_single_quiz_grows env (current_url st)
                (events st ++ [EvTime])) as Hstep.
  destruct (solve_single_quiz env (current_url st) (events st ++ [EvTime]))
    as [result tr2]. cbn [snd] in Hstep.
  assert (Hgrow : grows (events st) tr2 (S (quiz_count st) - quiz_count st)
                    (S (quiz_count st) - quiz_count st)
                    (2 * (S (quiz_count st) - quiz_count st))).
  { replace (S (quiz_count st) - quiz_count st) with 1 by lia.
    exact (grows_trans _ _ _ 0 0 0 1 1 2 Htick Hstep). }
  destruct result as [next|]; [destruct (value_truthy next)|];
    cbn [quiz_count events]; (split; [lia|exact Hgrow]).
Qed.

Lemma chain_loop_calls fuel st reason st' :
  chain_loop env fuel start_time st = Some (reason, st') ->
  quiz_count st <= quiz_count st'
  /\ grows (events st) (events st')
       (quiz_count st' - quiz_count st) (quiz_count st' - quiz_count st)
       (2 * (quiz_count st' - quiz_count st)).
Proof.
  revert st. induction fuel as [|fuel IH]; intros st; [discriminate|].
  cbn [chain_loop]. pose proof (chain_step_calls st) as Hstep.
  destruct (chain_step env start_time st) as [st1|reason1 st1].
  - intros Hloop. destruct (IH _ Hloop) as [Hle Hrest].
    destruct Hstep as [Hle1 Hfirst]. split; [lia|].
    pose proof (grows_trans _ _ _ _ _ _ _ _ _ Hfirst Hrest) as Hall.
    replace (quiz_count st' - quiz_count st)
      with (quiz_count st1 - quiz_count st + (quiz_count st' - quiz_count st1))
      by lia.
    replace (2 * (quiz_count st1 - quiz_count st
                  + (quiz_count st' - quiz_count st1)))
      with (2 * (quiz_count st1 - quiz_count st)
            + 2 * (quiz_count st' - quiz_count st1)) by lia.
    exact Hall.
  - intros [= _ <-]. exact Hstep.
Qed.

Lemma chain_loop_not_empty fuel st reason st' :
  value_truthy (current_url st) = true ->
  chain_loop env fuel start_time st = Some (reason, st') ->
  reason <> EmptyUrl.
Proof.
  revert st. induction fuel as [|fuel IH]; intros st Hurl; [discriminate|].
  cbn [chain_loop].
  destruct (chain_step env start_time st) as [st1|reason1 st1] eqn:Hstep.
  - apply IH. now apply ChainController.chain_step_running in Hstep.
  - intros [= <- _]. revert Hstep. unfold chain_step. rewrite Hurl.
    destruct (quiz_count st <? max_quizzes); cbn [andb];
      [|intros [= <- _]; discriminate].
    destruct (negb _); [intros [= <- _]; discriminate|].
    destruct (solve_single_quiz env (current_url st) (events st ++ [EvTime]))
      as [[next|] tr2]; [destruct (value_truthy next)|];
      intros [= <- _]; discriminate.
Qed.

End Turn.

(** X7: in every run the pages loaded are as many as the steps counted,
    the submissions are at most as many, and the model calls at most
    twice as many; with the limit on the counter a chain makes at most 20
    page loads, 20 submissions and 40 model calls. *)
Theorem calls_bounded initial_url reason st :
  solve_quiz_chain env initial_url = Some (reason, st) ->
  count is_browser (events st) = quiz_count st
  /\ count is_submit (events st) <= quiz_count st
  /\ count is_chat (events st) <= 2 * quiz_count st
  /\ quiz_count st <= 20.
Proof.
  unfold solve_quiz_chain. intros Hrun.
  destruct (chain_loop_calls _ _ _ _ _ Hrun) as [_ (suffix & Hev & Hb & Hs & Hc)].
  apply ChainController.chain_loop_count in Hrun as [_ Hmax].
  cbn [initial_state quiz_count events] in *.
  rewrite Nat.sub_0_r in *. rewrite Hev, !count_app. cbn.
  repeat split; try lia. apply Hmax. unfold max_quizzes. lia.
Qed.

(** X8: a chain asked to start at a falsy URL stops at the loop
    condition without a step or a call, and this is the only way to the
    stop for lack of a URL: a chain started at a truthy URL never takes it. *)
Theorem empty_url_only_at_start initial_url :
  (value_truthy initial_url = false ->
   solve_quiz_chain env initial_url
   = Some (EmptyUrl, initial_state initial_url))
  /\ (value_truthy initial_url = true ->
      forall reason st,
        solve_quiz_chain env initial_url = Some (reason, st) ->
        reason <> EmptyUrl).
Proof.
  split.
  - intros Hurl. unfold solve_quiz_chain. cbn [chain_loop]. unfold chain_step.
    cbn [initial_state current_url]. now rewrite Hurl.
  - intros Hurl reason st. now apply chain_loop_not_empty.
Qed.

End Run.

Lemma calls_bounded_witness :
  exists reason st,
    solve_quiz_chain (Demo.endless Demo.slow_clock) Demo.start_url
    = Some (reason, st)
    /\ count is_browser (events st) = quiz_count st
    /\ count is_submit (events st) <= quiz_count st
    /\ count is_chat (events st) <= 2 * quiz_count st
    /\ quiz_count st <= 20.
Proof.
  do 2 eexists. split; [vm_compute; reflexivity|].
  apply (calls_bounded (Demo.endless Demo.slow_clock) Demo.start_url
           TimeLimitReached).
  vm_compute. reflexivity.
Defined.

Lemma empty_url_only_at_start_witness :
  solve_quiz_chain Scenarios.offline (VStr "")
  = Some (EmptyUrl, initial_state (VStr ""))
  /\ (forall reason st,
         solve_quiz_chain Scenarios.offline Demo.start_url = Some (reason, st) ->
         reason <> EmptyUrl).
Proof.
  split.
  - apply (empty_url_only_at_start Scenarios.offline (VStr "")). reflexivity.
  - apply (empty_url_only_at_start Scenarios.offline Demo.start_url).
    reflexivity.
Defined.

End RunFacts.

(** ** Plans and answers: what the parsing steps hand on *)

Module ParseFacts.
Import PyStr PyStrFacts Solver Steps.
Local Open Scope list_scope.

Lemma find_from_get (c : ascii) (s : string) (k : Z) :
  find_from c s k <> -1 ->
  k <= find_from c s k
  /\ String.get (Z.to_nat (find_from c s k - k)) s = Some c.
Proof.
  revert k. induction s as [|a s IH]; intros k; simpl; [congruence|].
  destruct (Ascii.eqb_spec a c) as [->|_].
  - intros _. split; [lia|]. now rewrite Z.sub_diag.
  - intros H. destruct (IH (k + 1) H) as [Hle Hget]. split; [lia|].
    replace (Z.to_nat (find_from c s (k + 1) - k))
      with (S (Z.to_nat (find_from c s (k + 1) - (k + 1)))) by lia.
    exact Hget.
Qed.

Lemma rfind_from_get (c : ascii) (s : string) (i last : Z) :
  rfind_from c s i last = last
  \/ (i <= rfind_from c s i last
      /\ String.get (Z.to_nat (rfind_from c s i last - i)) s = Some c).
Proof.
  revert i last. induction s as [|a s IH]; intros i last; simpl; [now left|].
  destruct (IH (i + 1) (if Ascii.eqb a c then i else last)) as [H | [Hle Hget]].
  - rewrite H. destruct (Ascii.eqb_spec a c) as [->|_]; [|now left].
    right. split; [lia|]. now rewrite Z.sub_diag.
  - right. split; [lia|].
    set (r := rfind_from c s (i + 1) (if Ascii.eqb a c then i else last)) in *.
    replace (Z.to_nat (r - i)) with (S (Z.to_nat (r - (i + 1)))) by lia.
    exact Hget.
Qed.

Lemma prefix_app (p a b : string) :
  String.prefix p a = true -> String.prefix p (a ++ b) = true.
Proof.
  revert a. induction p as [|c p IH]; intros a; [intros _; apply prefix_nil|].
  destruct a as [|d a]; [discriminate|]. simpl.
  destruct (ascii_dec c d); [apply IH|discriminate].
Qed.

Lemma isdigit_not_space (c : ascii) : isdigit c = true -> isspace c = false.
Proof.
  destruct c as [b0 b1 b2 b3 b4 b5 b6 b7];
    destruct b0, b1, b2, b3, b4, b5, b6, b7; (reflexivity || discriminate).
Qed.

Lemma has_digit_lstrip_eq (s : string) : has_digit (lstrip s) = has_digit s.
Proof.
  induction s as [|c s IH]; [reflexivity|]. simpl.
  destruct (isspace c) eqn:Hc; [|reflexivity].
  rewrite IH. destruct (isdigit c) eqn:Hd; [|reflexivity].
  apply isdigit_not_space in Hd. congruence.
Qed.

Lemma has_digit_rstrip_eq (s : string) : has_digit (rstrip s) = has_digit s.
Proof.
  induction s as [|c s IH]; [reflexivity|].
  destruct (rstrip_cons c s) as [E|E]; rewrite E.
  - apply rstrip_nil_space in E as [Hc E']. simpl.
    rewrite <- IH, E'. destruct (isdigit c) eqn:Hd; [|reflexivity].
    apply isdigit_not_space in Hd. congruence.
  - simpl. now rewrite IH.
Qed.

Section Parsing.

Variable env : Env.

(** X9: when the model's text is no JSON by itself but holds an opening
    brace before its last closing brace, the plan is parsed from the text
    between the two, both included: what is handed to the parser starts
    with the first opening brace, ends with the last closing brace and is
    at least two characters long. *)
Theorem plan_from_braces analysis :
  json_loads env analysis = Raise ->
  find analysis "{" <> -1 ->
  rfind analysis "}" + 1 > find analysis "{" ->
  let start_idx := find analysis "{" in
  let end_idx := rfind analysis "}" + 1 in
  let candidate := slice analysis start_idx end_idx in
  let size := Z.to_nat (end_idx - start_idx) in
  parse_plan env analysis = json_loads env candidate
  /\ String.get 0 candidate = Some "{"%char
  /\ String.get (size - 1) candidate = Some "}"%char
  /\ String.get size candidate = None
  /\ (2 <= size)%nat.
Proof.
  intros Hloads Hfound Horder start_idx end_idx candidate size.
  destruct (find_from_get "{" analysis 0 Hfound) as [Hpos Hopen].
  fold (find analysis "{") in Hpos, Hopen. rewrite Z.sub_0_r in Hopen.
  destruct (rfind_from_get "}" analysis 0 (-1)) as [Hnone | [_ Hclose]];
    [unfold rfind in Horder; lia|].
  fold (rfind analysis "}") in Hclose. rewrite Z.sub_0_r in Hclose.
  assert (Hfirst : String.get 0 candidate = Some "{"%char).
  { unfold candidate, slice.
    rewrite substring_correct1 by (unfold end_idx, start_idx; lia).
    exact Hopen. }
  assert (Hlast : String.get (size - 1) candidate = Some "}"%char).
  { unfold candidate, slice. fold size.
    rewrite substring_correct1 by (unfold size, end_idx, start_idx; lia).
    replace (size - 1 + Z.to_nat start_idx)%nat
      with (Z.to_nat (rfind analysis "}"))
      by (unfold size, end_idx, start_idx; lia).
    exact Hclose. }
  refine (conj _ (conj Hfirst (conj Hlast (conj _ _)))).
  - unfold parse_plan. rewrite Hloads. fold start_idx end_idx.
    apply Z.eqb_neq in Hfound. fold start_idx in Hfound. rewrite Hfound.
    destruct (Z.gtb_spec end_idx start_idx); [reflexivity|].
    unfold end_idx, start_idx in *. lia.
  - unfold candidate, slice. fold size. now apply substring_correct2.
  - destruct size as [|[|size']] eqn:Hsize;
      [unfold size, end_idx, start_idx in Hsize; lia| |lia].
    simpl in Hlast. rewrite Hfirst in Hlast. discriminate.
Qed.

(** X10: a repaired submit URL is absolute: when the scheme of the quiz
    URL starts with [http], the repair of a URL that starts with a slash
    or holds the placeholder starts with [http]. *)
Theorem repaired_url_is_absolute quiz_url s scheme netloc :
  urlparse env quiz_url = Ret (scheme, netloc) ->
  startswith scheme "http" = true ->
  startswith s "/" = true \/ contains placeholder s = true ->
  exists repaired,
    repair_submit_url env quiz_url (VStr s) = Ret (VStr repaired)
    /\ startswith repaired "http" = true.
Proof.
  intros Hparse Hscheme Hcase. unfold repair_submit_url. rewrite Hparse.
  assert (Hne : truthy s = true).
  { destruct Hcase as [H | H]; destruct s; try discriminate; reflexivity. }
  rewrite Hne. cbn [andb].
  destruct (startswith s "/") eqn:Hslash.
  - replace (contains placeholder s || negb (startswith s "http")) with true.
    + eexists. split; [reflexivity|]. now apply prefix_app.
    + destruct (PlanExtractor.startswith_cons _ _ Hslash) as [s' ->].
      replace (startswith (String "/" s') "http") with false by reflexivity.
      now rewrite orb_true_r.
  - destruct Hcase as [H | H]; [discriminate|]. rewrite H. cbn [orb].
    destruct (startswith (replace s placeholder netloc) "http") eqn:Hhttp;
      cbn [negb]; eexists; (split; [reflexivity|]);
      [exact Hhttp|now apply prefix_app].
Qed.

End Parsing.

Lemma plan_from_braces_witness :
  parse_plan Scenarios.babbling "Plan: {a} ok"
  = json_loads Scenarios.babbling (slice "Plan: {a} ok" 6 9)
  /\ String.get 0 (slice "Plan: {a} ok" 6 9) = Some "{"%char
  /\ String.get (3 - 1) (slice "Plan: {a} ok" 6 9) = Some "}"%char
  /\ String.get 3 (slice "Plan: {a} ok" 6 9) = None
  /\ (2 <= 3)%nat.
Proof.
  apply (plan_from_braces Scenarios.babbling "Plan: {a} ok");
    [reflexivity|discriminate|reflexivity].
Defined.

Lemma repaired_url_is_absolute_witness :
  exists repaired,
    repair_submit_url Scenarios.offline Demo.start_url
      (VStr "current-page-url/submit")
    = Ret (VStr repaired)
    /\ startswith repaired "http" = true.
Proof.
  apply (repaired_url_is_absolute Scenarios.offline Demo.start_url
           "current-page-url/submit" "https" "quiz.example");
    [reflexivity|reflexivity|right; reflexivity].
Defined.

End ParseFacts.

(** ** Answers: numbers, images and the data behind them *)

Module ResolverFacts.
Import PyStr PyStrFacts Solver ParseFacts.
Local Open Scope list_scope.

Section Resolver.

Variable env : Env.

(** X11: for the shape [number], a reply that holds a digit is resolved
    by the first token of the pattern in the trimmed reply: to a float
    when the token holds a full stop, to the integer the token denotes
    when it holds none and [int] accepts it, and to the trimmed reply when
    [int] rejects it, which is when the token has more than 4300 digits. *)
Theorem number_with_digit_follows_token plan quiz_url tr sources content :
  resolver_input env plan tr (VStr "number") sources (Some content) ->
  has_digit content = true ->
  exists tok rest,
    findall_number (strip content) = tok :: rest
    /\ (contains "." tok = true ->
        exists q, fst (execute_solution_plan env plan quiz_url tr) = VFloat q)
    /\ (contains "." tok = false ->
        forall z,
          int_of_token tok = Some z ->
          fst (execute_solution_plan env plan quiz_url tr) = VInt z)
    /\ (contains "." tok = false ->
        int_of_token tok = None ->
        fst (execute_solution_plan env plan quiz_url tr) = VStr (strip content))
    /\ (int_of_token tok = None
        <-> int_max_str_digits
            < Z.of_nat (String.length (snd (unsigned_part tok)))).
Proof.
  intros Hin Hdigit.
  assert (Hne : truthy content = true) by now destruct content.
  rewrite (AnswerResolver.execute_solution_plan_reply env plan quiz_url tr
             sources _ _ Hin Hne).
  cbn [fst]. unfold coerce_answer. cbn [is_str String.eqb Ascii.eqb Bool.eqb].
  destruct (findall_number (strip content)) as [|tok rest] eqn:Htokens.
  - apply findall_number_nil in Htokens.
    unfold strip in Htokens.
    rewrite has_digit_rstrip_eq, has_digit_lstrip_eq in Htokens. congruence.
  - exists tok, rest. split; [reflexivity|].
    refine (conj _ (conj _ (conj _ _))).
    + intros ->. eauto.
    + intros -> z ->. reflexivity.
    + intros -> ->. reflexivity.
    + unfold int_of_token. destruct (unsigned_part tok) as [neg t]. cbn [snd].
      destruct (Z.ltb_spec int_max_str_digits (Z.of_nat (String.length t)));
        split; intros H'; try reflexivity; try assumption;
        try discriminate; lia.
Qed.

(** X12: when an image is asked for, data is found, the title can be
    cut and the drawing does not raise, the answer is a data URI of a PNG:
    the prefix [data:image/png;base64,] and what the renderer returned. *)
Theorem image_answer_is_data_uri plan quiz_url tr sources shape content data
    question title image_base64 :
  resolver_input env plan tr (VStr shape) sources (Some content) ->
  truthy content = true ->
  is_chart_shape shape = true ->
  prepare_chart_data env (fst (download_all env sources tr)) (strip content)
  = Some data ->
  get plan "question" (VStr "Chart") = Ret question ->
  slice50 question = Ret title ->
  render_png env (snd (download_all env sources tr) ++ [EvAnswerChat]) data
    (determine_chart_type (strip content)) title
  = Ret image_base64 ->
  fst (execute_solution_plan env plan quiz_url tr)
  = VStr ("data:image/png;base64," ++ image_base64)%string.
Proof.
  intros Hin Hne Hshape Hdata Hquestion Htitle Hrender.
  rewrite (AnswerResolver.execute_solution_plan_reply env plan quiz_url tr
             sources _ _ Hin Hne).
  cbn [fst]. unfold coerce_answer. cbn [is_str].
  destruct (String.eqb_spec shape "number") as [->|_]; [discriminate|].
  destruct (String.eqb_spec shape "boolean") as [->|_]; [discriminate|].
  destruct (String.eqb_spec shape "json") as [->|_]; [discriminate|].
  rewrite Hshape, Hdata, Hquestion, Htitle. unfold create_chart.
  now rewrite Hrender.
Qed.

(** X13: raw text among the downloads hides what follows it: when no
    earlier datum yields data, [prepare_chart_data] returns [None] at the
    first datum that is text, whatever comes after it. *)
Theorem raw_text_hides_later_data before raw_text after answer_text :
  (forall earlier, In earlier before -> chart_item env earlier = Ret None) ->
  prepare_chart_data env (before ++ VStr raw_text :: after) answer_text = None.
Proof.
  intros Hbefore.
  assert (Hloop : chart_loop env (before ++ VStr raw_text :: after) = Raise).
  { induction before as [|x before IH]; [reflexivity|]. simpl.
    rewrite (Hbefore x (or_introl eq_refl)).
    apply IH. intros earlier Hin. apply Hbefore. now right. }
  unfold prepare_chart_data. rewrite Hloop.
  now destruct (before ++ VStr raw_text :: after).
Qed.

End Resolver.

(** X14: the visualizer draws nothing in exactly one case that the
    resolver can produce: a frame as data and a reply that mentions
    "pie".  For a dictionary every chart kind the resolver picks is drawn. *)
Theorem nothing_drawn_for_pie_of_frame data answer_text :
  Visualizer.draw data (determine_chart_type answer_text) = None
  <-> (exists columns, data = Frame columns)
      /\ contains "pie" (lower answer_text) = true.
Proof.
  unfold determine_chart_type.
  destruct (contains "pie" (lower answer_text));
    [|destruct (contains "line" (lower answer_text)
               || contains "trend" (lower answer_text)
               || contains "time" (lower answer_text))];
    destruct data as [columns|d]; cbn;
    (split;
     [intros H; try discriminate H; split; eauto
     |intros [[c Hc] Hp]; try discriminate Hc; try discriminate Hp;
      reflexivity]).
Qed.

Lemma nothing_drawn_for_pie_of_frame_witness :
  Visualizer.draw (Frame Demo.small_table)
    (determine_chart_type "A pie chart of x")
  = None.
Proof.
  apply (proj2 (nothing_drawn_for_pie_of_frame (Frame Demo.small_table)
                  "A pie chart of x")).
  split; [now exists Demo.small_table|reflexivity].
Defined.

Lemma number_with_digit_follows_token_witness :
  fst (execute_solution_plan (Demo.replying "number" " about -12 apples ")
         (Demo.shaped_plan "number") Demo.start_url [])
  = VInt (-12)
  /\ fst (execute_solution_plan
            (Demo.replying "number" (Scenarios.ones 4301))
            (Demo.shaped_plan "number") Demo.start_url [])
     = VStr (strip (Scenarios.ones 4301)).
Proof.
  split.
  - destruct (number_with_digit_follows_token
                (Demo.replying "number" " about -12 apples ")
                (Demo.shaped_plan "number") Demo.start_url [] []
                " about -12 apples "
                (AnswerResolver.replying_input _ _ _) eq_refl)
      as (tok & rest & Htokens & _ & Hint & _).
    injection Htokens as <- _. now apply Hint.
  - destruct (number_with_digit_follows_token
                (Demo.replying "number" (Scenarios.ones 4301))
                (Demo.shaped_plan "number") Demo.start_url [] []
                (Scenarios.ones 4301)
                (AnswerResolver.replying_input _ _ _) eq_refl)
      as (tok & rest & Htokens & _ & _ & Htext & _).
    vm_compute in Htokens. injection Htokens as <- _.
    apply Htext; vm_compute; reflexivity.
Defined.

Lemma image_answer_is_data_uri_witness :
  fst (execute_solution_plan Scenarios.charting Scenarios.chart_plan
         Demo.start_url [])
  = VStr "data:image/png;base64,iVBORw0KGgo=".
Proof.
  apply (image_answer_is_data_uri Scenarios.charting Scenarios.chart_plan
           Demo.start_url [] [VStr "https://quiz.example/data.csv"]
           "base64_image" "a bar chart of x" (Frame Demo.small_table)
           (VStr "How many rows?") (VStr "How many rows?") "iVBORw0KGgo=");
    try reflexivity.
  split; [|split]; try reflexivity.
  exists (VList [VStr "https://quiz.example/data.csv"]). now split.
Defined.

Lemma raw_text_hides_later_data_witness :
  prepare_chart_data Demo.quiet
    ([pdf_record "report" []]
     ++ VStr "plain words" :: [csv_record Demo.small_table VNone])
    "a bar chart"
  = None.
Proof.
  apply (raw_text_hides_later_data Demo.quiet [pdf_record "report" []]).
  intros earlier [<- | []]. reflexivity.
Defined.

End ResolverFacts.

(** ** Downloads: the dispatch of [fetch_and_process] *)

Module DownloadFacts.
Import PyStr Solver DataProcessor.
Local Open Scope list_scope.

Section Dispatch.

Variable lib : Parsers.


Section Chart.

Variable env : Env.

(** X16: a download that is marked as json, and not as pdf or csv, and
    whose body parses, gives chart data exactly when the parsed value is
    an object: with the solver downloading through [fetch_and_process],
    the chart data of that one source is the object itself, and none for
    an array or a scalar. *)
Theorem json_download_is_chart_data u response data tr answer_text :
  (forall tr' url, Solver.fetch_and_process env tr' url
                   = fetch_and_process lib url) ->
  http_get lib (VStr u) = Ret response ->
  status_code response = 200 ->
  let content_type :=
    lower (match content_type_header response with
           | Some header => header
           | None => EmptyString
           end) in
  contains "pdf" content_type = false -> endswith u ".pdf" = false ->
  contains "csv" content_type = false -> endswith u ".csv" = false ->
  contains "json" content_type = true \/ endswith u ".json" = true ->
  loads lib (content response) = Ret data ->
  prepare_chart_data env (fst (download_all env [VStr u] tr)) answer_text
  = match data with
    | VDict _ => Some (Dict data)
    | _ => None
    end.
Proof.
  intros Henv Hget Hstatus content_type Hp Hp' Hc Hc' Hjson Hloads.
  assert (Hfetch : fetch_and_process lib (VStr u) = json_record data).
  { unfold fetch_and_process. rewrite Hget, Hstatus. cbn [Z.eqb Pos.eqb negb].
    fold content_type. unfold marks, url_endswith. cbn [existsb].
    rewrite Hp, Hp', Hc, Hc'. cbn [orb].
    unfold process_json. rewrite Hloads.
    destruct Hjson as [H | H]; rewrite H; [reflexivity|].
    now destruct (contains "json" content_type). }
  cbn [download_all]. rewrite Henv, Hfetch. cbn.
  now destruct data.
Qed.

End Chart.

End Dispatch.


Lemma json_download_is_chart_data_witness :
  prepare_chart_data (Scenarios.downloading Scenarios.json_site)
    (fst (download_all (Scenarios.downloading Scenarios.json_site)
            [VStr "https://quiz.example/api"] []))
    "a bar chart"
  = Some (Dict Demo.small_object).
Proof.
  apply (json_download_is_chart_data Scenarios.json_site
           (Scenarios.downloading Scenarios.json_site)
           "https://quiz.example/api" _ Demo.small_object [] "a bar chart"
           (fun _ _ => eq_refl) eq_refl eq_refl);
    try reflexivity.
  left. reflexivity.
Defined.

End DownloadFacts.

(** ** The endpoint: which requests start a chain *)

Module AcceptanceFacts.
Import PyStr Solver Acceptance.
Local Open Scope list_scope.

(** X17: the endpoint starts a chain only for a JSON object whose
    [secret] is the configured one and whose [url] is truthy, and exactly
    then it replies 200; the chain gets the [url] and [email] of the
    request.  A wrong or missing secret is answered 403 before the URL is
    looked at. *)
Theorem endpoint_starts_authorised_chains EXPECTED_SECRET get_json :
  (forall w,
      snd (quiz_endpoint EXPECTED_SECRET get_json) = Some w ->
      exists kvs,
        get_json = Ret (VDict kvs)
        /\ get (VDict kvs) "secret" VNone = Ret (VStr EXPECTED_SECRET)
        /\ get (VDict kvs) "url" VNone = Ret (url w)
        /\ get (VDict kvs) "email" VNone = Ret (email w)
        /\ value_truthy (url w) = true)
  /\ (snd (quiz_endpoint EXPECTED_SECRET get_json) <> None
      <-> exists body,
            fst (quiz_endpoint EXPECTED_SECRET get_json) = Reply 200 body)
  /\ (forall kvs,
         get_json = Ret (VDict kvs) -> kvs <> [] ->
         is_str match dict_lookup "secret" kvs with
                | Some v => v
                | None => VNone
                end EXPECTED_SECRET = false ->
         quiz_endpoint EXPECTED_SECRET get_json
         = (Reply 403 [("error", VStr "Invalid secret")], None)).
Proof.
  unfold quiz_endpoint. refine (conj _ (conj _ _)).
  - intros w. destruct get_json as [data|]; [|discriminate].
    destruct (value_truthy data); [|discriminate].
    destruct data as [| | | | | |kvs]; try discriminate.
    cbn [get negb].
    destruct (is_str _ EXPECTED_SECRET) eqn:Hsecret; [|discriminate].
    destruct (value_truthy match dict_lookup "url" kvs with
                           | Some v => v
                           | None => VNone
                           end) eqn:Hurl; [|discriminate].
    cbn. intros [= <-]. exists kvs. cbn. repeat split; auto.
    destruct (match dict_lookup "secret" kvs with
              | Some v => v
              | None => VNone
              end); try discriminate.
    cbn in Hsecret. now apply String.eqb_eq in Hsecret as ->.
  - destruct get_json as [data|];
      [|cbn; split; [congruence|intros [body [=]]]].
    destruct (value_truthy data);
      [|cbn; split; [congruence|intros [body [=]]]].
    destruct data as [| | | | | |kvs];
      try (cbn; split; [congruence|intros [body [=]]]).
    cbn [get negb].
    destruct (is_str _ EXPECTED_SECRET);
      [|cbn; split; [congruence|intros [body [=]]]].
    destruct (value_truthy _);
      cbn; split; try congruence; try (intros [body [=]]); eauto.
  - intros kvs -> Hne Hsecret. destruct kvs; [congruence|].
    cbn [value_truthy negb get]. now rewrite Hsecret.
Qed.

(** X18: every chain the endpoint starts terminates, and never by
    finding no URL: the loop condition holds at its first turn. *)
Theorem started_chain_has_url EXPECTED_SECRET get_json w env :
  snd (quiz_endpoint EXPECTED_SECRET get_json) = Some w ->
  exists reason st,
    solve_quiz_async env w = Some (reason, st)
    /\ reason <> EmptyUrl
    /\ (quiz_count st <= 20)%nat.
Proof.
  intros Hstart.
  assert (Hurl : value_truthy (url w) = true).
  { revert Hstart. unfold quiz_endpoint.
    destruct get_json as [data|]; [|discriminate].
    destruct (value_truthy data); [|discriminate].
    destruct (get data "email" VNone); [|discriminate].
    destruct (get data "secret" VNone); [|discriminate].
    destruct (get data "url" VNone) as [u|]; [|discriminate].
    destruct (negb (is_str _ _)); [discriminate|].
    destruct (value_truthy u) eqn:Hu; [|discriminate].
    now intros [= <-]. }
  unfold solve_quiz_async, solve_quiz_chain.
  destruct (ChainController.chain_loop_total env (time_time env [])
              (S max_quizzes) (initial_state (url w)))
    as (reason & st & Hrun); [unfold max_quizzes; cbn; lia|].
  exists reason, st. split; [assumption|]. split.
  - exact (RunFacts.chain_loop_not_empty env _ _ (initial_state (url w))
             _ _ Hurl Hrun).
  - apply ChainController.chain_loop_count in Hrun as [_ Hmax].
    apply Hmax. unfold max_quizzes. cbn. lia.
Qed.

Lemma endpoint_starts_authorised_chains_witness :
  (exists kvs,
      Scenarios.request (VStr "s3cret") Demo.start_url = Ret (VDict kvs)
      /\ get (VDict kvs) "secret" VNone = Ret (VStr "s3cret")
      /\ get (VDict kvs) "url" VNone = Ret Demo.start_url
      /\ get (VDict kvs) "email" VNone = Ret (VStr "student@example.com")
      /\ value_truthy Demo.start_url = true)
  /\ quiz_endpoint "s3cret" (Scenarios.request (VStr "guess") VNone)
     = (Reply 403 [("error", VStr "Invalid secret")], None).
Proof.
  split.
  - apply (proj1 (endpoint_starts_authorised_chains "s3cret"
                    (Scenarios.request (VStr "s3cret") Demo.start_url))
             {| email := VStr "student@example.com"; secret := VStr "s3cret";
                url := Demo.start_url |}).
    reflexivity.
  - apply (proj2 (proj2 (endpoint_starts_authorised_chains "s3cret"
                           (Scenarios.request (VStr "guess") VNone)))
             [("email", VStr "student@example.com"); ("secret", VStr "guess");
              ("url", VNone)]);
      [reflexivity|discriminate|reflexivity].
Defined.

Lemma started_chain_has_url_witness :
  exists reason st,
    solve_quiz_async (Demo.endless Demo.frozen_clock)
      {| email := VStr "student@example.com"; secret := VStr "s3cret";
         url := Demo.start_url |}
    = Some (reason, st)
    /\ reason <> EmptyUrl
    /\ (quiz_count st <= 20)%nat.
Proof.
  apply (started_chain_has_url "s3cret"
           (Scenarios.request (VStr "s3cret") Demo.start_url)).
  reflexivity.
Defined.

End AcceptanceFacts.

(** ** Plans of an unexpected form *)

Module PlanShapeFacts.
Import PyStr Solver StepFacts.
Local Open Scope list_scope.

Section Shapes.

Variable env : Env.

(** X19: a model text that parses to something other than a JSON object
    (an array, a number) ends the plan extraction in failure right after
    the first model call: nothing is downloaded, the model is not asked
    for an answer, and there is no solution to submit. *)
Theorem non_object_plan_fails content quiz_url tr analysis plan :
  chat_completion env tr = Ret (Some analysis) ->
  truthy analysis = true ->
  parse_plan env analysis = Ret plan ->
  (forall kvs, plan <> VDict kvs) ->
  analyze_and_solve env content quiz_url tr = (None, tr ++ [EvPlanChat]).
Proof.
  intros Hchat Hanalysis Hplan Hshape. unfold analyze_and_solve.
  rewrite Hchat, Hanalysis, Hplan.
  destruct plan as [| | | | | |kvs]; try reflexivity.
  now destruct (Hshape kvs).
Qed.

(** X20: a plan that gives [data_sources] as one text instead of a list
    has every character of the text fetched as a source of its own, in
    order, before the model is asked for the answer. *)
Theorem text_sources_fetched_by_character plan quiz_url tr s answer_format :
  get plan "data_sources" (VList []) = Ret (VStr s) ->
  get plan "answer_format" (VStr "string") = Ret answer_format ->
  snd (execute_solution_plan env plan quiz_url tr)
  = (tr ++ map EvDownload (chars s)) ++ [EvAnswerChat]
  /\ List.length (chars s) = String.length s.
Proof.
  intros Hsources Hformat. split.
  - unfold execute_solution_plan. rewrite Hsources, Hformat. cbn [py_iter].
    pose proof (download_all_trace env (chars s) tr) as Htrace.
    destruct (download_all env (chars s) tr) as [downloaded tr1].
    cbn [snd] in Htrace. rewrite <- Htrace.
    destruct (chat_completion env tr1) as [[reply|]|]; try reflexivity.
    destruct (truthy reply); [|reflexivity].
    now destruct (coerce_answer env plan answer_format downloaded
                    (strip reply) (tr1 ++ [EvAnswerChat])).
  - clear Hsources. induction s as [|c s IH]; simpl; [reflexivity|].
    f_equal. exact IH.
Qed.

End Shapes.

Lemma non_object_plan_fails_witness :
  analyze_and_solve Scenarios.listing Demo.quiz_page Demo.start_url
    [EvBrowser Demo.start_url]
  = (None, [EvBrowser Demo.start_url] ++ [EvPlanChat]).
Proof.
  apply (non_object_plan_fails Scenarios.listing Demo.quiz_page Demo.start_url
           [EvBrowser Demo.start_url] "[1]" (VList [VInt 1]));
    try reflexivity.
  discriminate.
Defined.

Lemma text_sources_fetched_by_character_witness :
  snd (execute_solution_plan Demo.quiet
         (Demo.plan_with (VStr "a.b") (VStr "/submit") (VStr "string"))
         Demo.start_url [])
  = ([] ++ map EvDownload (chars "a.b")) ++ [EvAnswerChat]
  /\ List.length (chars "a.b") = String.length "a.b".
Proof.
  apply (text_sources_fetched_by_character Demo.quiet
           (Demo.plan_with (VStr "a.b") (VStr "/submit") (VStr "string"))
           Demo.start_url [] "a.b" (VStr "string"));
    reflexivity.
Defined.

End PlanShapeFacts.
